(** * Favicon generation script: a shallow embedding and its properties

    The development embeds [scripts/generate-favicon-python.py] in Rocq.
    The script checks that a logo file exists, ensures that the output
    directory exists, resizes the logo to five square sizes saved as PNG,
    saves a 32x32 ICO, and writes a constant web manifest as JSON.

    - Python values: strings are [string] (byte strings as well), integers
      are [Z], the dict literals of [sizes] are records, the manifest is a
      value of the JSON data model [json] (dicts keep insertion order).
    - Effects: a state-and-exception monad [M] over a [world] that holds
      the file system (a finite map from path strings to nodes), the
      module-level list [sizes], the lines printed on standard output and
      a log of the file system calls made.
    - Pillow is not part of the repository: the decoder, the resampler
      and the encoders are parameters of the development.
    - Paths follow [posixpath]; the directory hierarchy itself is not
      modelled (the parent of the output directory is the project root,
      which holds the logo). *)

From Stdlib Require Import ZArith Ascii String List.
From stdpp Require Import base option gmap strings pretty list fin_maps.

Set Warnings "-register-all".

Open Scope Z_scope.
Open Scope string_scope.
Open Scope list_scope.

(** ** Characters and string helpers *)

Definition sep : ascii := "/"%char.
Definition dquote : ascii := ascii_of_nat 34.
Definition newline : ascii := ascii_of_nat 10.

Definition is_sep (c : ascii) : bool := Ascii.eqb c sep.

Fixpoint has_sep (s : string) : bool :=
  match s with
  | EmptyString => false
  | String c r => is_sep c || has_sep r
  end.

Fixpoint all_sep (s : string) : bool :=
  match s with
  | EmptyString => true
  | String c r => is_sep c && all_sep r
  end.

Definition startswith_sep (s : string) : bool :=
  match s with
  | EmptyString => false
  | String c _ => is_sep c
  end.

Fixpoint endswith_sep (s : string) : bool :=
  match s with
  | EmptyString => false
  | String c EmptyString => is_sep c
  | String _ r => endswith_sep r
  end.

Definition is_empty (s : string) : bool :=
  match s with
  | EmptyString => true
  | String _ _ => false
  end.

(** [s] between double quotes. *)
Definition in_quotes (s : string) : string := String dquote (s +:+ String dquote EmptyString).

(** The lines of a text, joined by newlines. *)
Fixpoint unlines (l : list string) : string :=
  match l with
  | [] => EmptyString
  | [x] => x
  | x :: l' => x +:+ String newline (unlines l')
  end.

(** ** [os.path] (posixpath) *)

Module os_path.

(** [p[:p.rfind('/') + 1]]: the prefix of [p] up to and including its
    last separator. *)
Fixpoint upto_last_sep (p : string) : string :=
  match p with
  | EmptyString => EmptyString
  | String c r => if has_sep p then String c (upto_last_sep r) else EmptyString
  end.

(** [head.rstrip('/')] *)
Fixpoint rstrip_sep (s : string) : string :=
  match s with
  | EmptyString => EmptyString
  | String c r => if all_sep s then EmptyString else String c (rstrip_sep r)
  end.

(** [posixpath.dirname]:
    [head = p[:i]; if head and head != sep*len(head): head = head.rstrip(sep)] *)
Definition dirname (p : string) : string :=
  let head := upto_last_sep p in
  if negb (is_empty head) && negb (all_sep head) then rstrip_sep head else head.

(** [posixpath.join] with two arguments: [b] replaces [a] when it is
    absolute; otherwise a separator is put between them unless [a] is
    empty or already ends with one. *)
Definition join (a b : string) : string :=
  if startswith_sep b then b
  else if is_empty a || endswith_sep a then a +:+ b
  else a +:+ String sep b.

End os_path.

(** ** Python exceptions and results *)

(** The exceptions the model raises.  All but [KeyboardInterrupt] are
    instances of [Exception]; [KeyboardInterrupt] derives from
    [BaseException] only. *)
Inductive py_exc : Type :=
| FileExistsError (path : string)
| IsADirectoryError (path : string)
| FileNotFoundError (path : string)
| OtherException (msg : string)
| KeyboardInterrupt.

#[global] Instance py_exc_eq_dec : EqDecision py_exc.
Proof. solve_decision. Defined.

(** [isinstance(e, Exception)] *)
Definition is_Exception (e : py_exc) : bool :=
  match e with
  | KeyboardInterrupt => false
  | _ => true
  end.

Definition quoted (p : string) : string := "'" +:+ p +:+ "'".

(** [str(e)] *)
Definition str (e : py_exc) : string :=
  match e with
  | FileExistsError p => "[Errno 17] File exists: " +:+ quoted p
  | IsADirectoryError p => "[Errno 21] Is a directory: " +:+ quoted p
  | FileNotFoundError p => "[Errno 2] No such file or directory: " +:+ quoted p
  | OtherException msg => msg
  | KeyboardInterrupt => EmptyString
  end.

Inductive py_result (A : Type) : Type :=
| Ok (a : A)
| Raise (e : py_exc).
Arguments Ok {A} a.
Arguments Raise {A} e.

(** ** The world *)

Inductive node : Type :=
| File (content : string)
| Dir.

#[global] Instance node_eq_dec : EqDecision node.
Proof. solve_decision. Defined.

Inductive save_format : Type := PNG | ICO.

#[global] Instance save_format_eq_dec : EqDecision save_format.
Proof. solve_decision. Defined.

(** [PIL.Image.Resampling] *)
Inductive Resampling : Type :=
| NEAREST | BOX | BILINEAR | HAMMING | BICUBIC | LANCZOS.

(** One entry of [sizes]: [{'name': ..., 'size': ...}]. *)
Record size_item : Type := SizeItem { name : string; size : Z }.

(** File system calls, as logged. *)
Inductive fs_call : Type :=
| Makedirs (path : string)
| Save (path : string) (fmt : save_format)
| WriteText (path : string).

#[global] Instance fs_call_eq_dec : EqDecision fs_call.
Proof. solve_decision. Defined.

(** A logged call with what it wrote: [Some content] when a file was
    written completely, [None] when nothing was (a directory call, or a
    call that raised). *)
Record fs_event : Type := FsEvent { ev_call : fs_call; ev_wrote : option string }.

#[global] Instance fs_event_eq_dec : EqDecision fs_event.
Proof. solve_decision. Defined.

Definition call_path (c : fs_call) : string :=
  match c with
  | Makedirs p => p
  | Save p _ => p
  | WriteText p => p
  end.

Record world : Type := World {
  w_fs : gmap string node;
  w_sizes : list size_item;
  w_stdout : list string;
  w_log : list fs_event
}.

Definition set_fs (f : gmap string node → gmap string node) (w : world) : world :=
  World (f (w_fs w)) (w_sizes w) (w_stdout w) (w_log w).

Definition add_stdout (s : string) (w : world) : world :=
  World (w_fs w) (w_sizes w) (w_stdout w ++ [s]) (w_log w).

Definition add_log (e : fs_event) (w : world) : world :=
  World (w_fs w) (w_sizes w) (w_stdout w) (w_log w ++ [e]).

(** ** The monad: state passing with exceptions *)

Definition M (A : Type) : Type := world → py_result A * world.

Definition ret {A} (a : A) : M A := fun w => (Ok a, w).

Definition bind {A B} (m : M A) (k : A → M B) : M B :=
  fun w =>
    match m w with
    | (Ok a, w') => k a w'
    | (Raise e, w') => (Raise e, w')
    end.

Declare Scope py_scope.
Delimit Scope py_scope with py.
Notation "x <- m ;; k" := (bind m (fun x => k))
  (at level 100, m at next level, right associativity) : py_scope.
Notation "m ;; k" := (bind m (fun _ => k))
  (at level 100, right associativity) : py_scope.
Open Scope py_scope.

(** [try: body / except Exception as e: handler e].  An exception that is
    not an instance of [Exception] is not caught. *)
Definition try_except_Exception (body : M unit) (handler : py_exc → M unit) : M unit :=
  fun w =>
    match body w with
    | (Ok tt, w') => (Ok tt, w')
    | (Raise e, w') => if is_Exception e then handler e w' else (Raise e, w')
    end.

(** [for x in l: body x] *)
Fixpoint for_each {A} (l : list A) (body : A → M unit) : M unit :=
  match l with
  | [] => ret tt
  | x :: l' => body x ;; for_each l' body
  end.

(** ** Primitives of the standard library *)

(** [print(s)] *)
Definition print (s : string) : M unit := fun w => (Ok tt, add_stdout s w).

(** [os.path.exists(p)] *)
Definition os_path_exists (p : string) : M bool :=
  fun w => (Ok (bool_decide (is_Some (w_fs w !! p))), w).

(** [os.makedirs(p, exist_ok=exist_ok)]: nothing to do when [p] is a
    directory and [exist_ok] holds; [FileExistsError] when [p] exists
    otherwise; the directory is created when [p] is absent. *)
Definition os_makedirs (p : string) (exist_ok : bool) : M unit :=
  fun w =>
    let w1 := add_log (FsEvent (Makedirs p) None) w in
    match w_fs w !! p with
    | Some Dir => if exist_ok then (Ok tt, w1) else (Raise (FileExistsError p), w1)
    | Some (File _) => (Raise (FileExistsError p), w1)
    | None => (Ok tt, set_fs (insert p Dir) w1)
    end.

(** Reading the global list [sizes]. *)
Definition get_sizes : M (list size_item) := fun w => (Ok (w_sizes w), w).

(** [with open(p, 'w', encoding='utf-8') as f: f.write(text)], for ASCII
    text. *)
Definition write_text (p : string) (text : string) : M unit :=
  fun w =>
    match w_fs w !! p with
    | Some Dir => (Raise (IsADirectoryError p), add_log (FsEvent (WriteText p) None) w)
    | _ => (Ok tt, add_log (FsEvent (WriteText p) (Some text)) (set_fs (insert p (File text)) w))
    end.

(** ** JSON: the data model and [json.dump] *)

(** The part of Python's JSON data model the script uses, with [None],
    booleans and integers.  A dict is an association list: Python dicts
    keep insertion order, and [json.dump] writes the items in that order. *)
Inductive json : Type :=
| JNull
| JBool (b : bool)
| JInt (n : Z)
| JStr (s : string)
| JList (items : list json)
| JDict (items : list (string * json)).

Module json_encoder.

Definition hex_digit (n : N) : ascii :=
  if (n <? 10)%N then ascii_of_N (48 + n) else ascii_of_N (87 + n).

(** ['\\u{0:04x}'.format(n)] for [n < 256] *)
Definition u_escape (c : ascii) : string :=
  let n := N_of_ascii c in
  "\u00" +:+ String (hex_digit (n / 16)) (String (hex_digit (n mod 16)) EmptyString).

(** The replacement of one character in [py_encode_basestring_ascii]:
    [ESCAPE_DCT] for the backslash, the double quote and the control
    characters, [\uXXXX] for what is outside [' '..'~']. *)
Definition escape_char (c : ascii) : string :=
  let n := N_of_ascii c in
  if (n =? 92)%N then "\\"
  else if (n =? 34)%N then String "\" (String dquote EmptyString)
  else if (n =? 8)%N then "\b"
  else if (n =? 12)%N then "\f"
  else if (n =? 10)%N then "\n"
  else if (n =? 13)%N then "\r"
  else if (n =? 9)%N then "\t"
  else if (n <? 32)%N || (126 <? n)%N then u_escape c
  else String c EmptyString.

Fixpoint escape (s : string) : string :=
  match s with
  | EmptyString => EmptyString
  | String c r => escape_char c +:+ escape r
  end.

(** [encode_basestring_ascii(s)] *)
Definition encode_basestring_ascii (s : string) : string := in_quotes (escape s).

Fixpoint spaces (n : nat) : string :=
  match n with
  | O => EmptyString
  | S k => String " " (spaces k)
  end.

(** ['\n' + _indent * level], where [_indent] is [indent] spaces *)
Definition newline_indent (indent level : nat) : string :=
  String newline (spaces (indent * level)).

(** [first] is [True] before the first item: later items are preceded by
    the item separator [',' + newline_indent]. *)
Definition item_prefix (first : bool) (indent level : nat) : string :=
  if first then EmptyString else "," +:+ newline_indent indent level.

(** [_iterencode] with [indent] set, its chunks concatenated.  [level]
    is [_current_indent_level]. *)
Fixpoint iterencode (indent : nat) (level : nat) (v : json) : string :=
  match v with
  | JNull => "null"
  | JBool true => "true"
  | JBool false => "false"
  | JInt n => pretty n
  | JStr s => encode_basestring_ascii s
  | JList [] => "[]"
  | JList items =>
      "[" +:+ newline_indent indent (S level)
      +:+ (fix go (first : bool) (l : list json) : string :=
             match l with
             | [] => EmptyString
             | x :: l' =>
                 item_prefix first indent (S level)
                 +:+ iterencode indent (S level) x +:+ go false l'
             end) true items
      +:+ newline_indent indent level +:+ "]"
  | JDict [] => "{}"
  | JDict items =>
      "{" +:+ newline_indent indent (S level)
      +:+ (fix go (first : bool) (l : list (string * json)) : string :=
             match l with
             | [] => EmptyString
             | (k, x) :: l' =>
                 item_prefix first indent (S level)
                 +:+ encode_basestring_ascii k +:+ ": "
                 +:+ iterencode indent (S level) x +:+ go false l'
             end) true items
      +:+ newline_indent indent level +:+ "}"
  end.

End json_encoder.

(** [json.dump(obj, f, indent=indent)]: the text written to [f]. *)
Definition json_dumps (obj : json) (indent : nat) : string :=
  json_encoder.iterencode indent 0 obj.

(** ** Reading JSON back

    A reader for JSON texts, used to state what the manifest file holds
    once parsed: the grammar of RFC 8259 restricted to integers for
    numbers, with the escapes of strings decoded for code points below
    256.  Recursion is on a fuel bounded by the length of the text. *)

Module json_reader.

Definition is_ws (c : ascii) : bool :=
  let n := N_of_ascii c in
  (n =? 32)%N || (n =? 9)%N || (n =? 10)%N || (n =? 13)%N.

Fixpoint skip_ws (s : string) : string :=
  match s with
  | String c r => if is_ws c then skip_ws r else s
  | EmptyString => EmptyString
  end.

Definition digit_val (c : ascii) : option N :=
  let n := N_of_ascii c in
  if (48 <=? n)%N && (n <=? 57)%N then Some (n - 48)%N else None.

Definition hex_val (c : ascii) : option N :=
  let n := N_of_ascii c in
  if (48 <=? n)%N && (n <=? 57)%N then Some (n - 48)%N
  else if (97 <=? n)%N && (n <=? 102)%N then Some (n - 87)%N
  else if (65 <=? n)%N && (n <=? 70)%N then Some (n - 55)%N
  else None.

(** The character an escape letter stands for. *)
Definition unescape (c : ascii) : option ascii :=
  let n := N_of_ascii c in
  if (n =? 34)%N || (n =? 92)%N || (n =? 47)%N then Some c
  else if (n =? 98)%N then Some (ascii_of_N 8)
  else if (n =? 102)%N then Some (ascii_of_N 12)
  else if (n =? 110)%N then Some (ascii_of_N 10)
  else if (n =? 114)%N then Some (ascii_of_N 13)
  else if (n =? 116)%N then Some (ascii_of_N 9)
  else None.

(** The characters of a string after its opening quote, up to the
    closing quote. *)
Fixpoint read_chars (s : string) : option (string * string) :=
  match s with
  | EmptyString => None
  | String c r =>
      let n := N_of_ascii c in
      if (n =? 34)%N then Some (EmptyString, r)
      else if (n <? 32)%N then None
      else if (n =? 92)%N then
        match r with
        | String e r' =>
            if (N_of_ascii e =? 117)%N then
              match r' with
              | String a (String b (String c' (String d r''))) =>
                  match hex_val a, hex_val b, hex_val c', hex_val d, read_chars r'' with
                  | Some 0%N, Some 0%N, Some h, Some l, Some (cs, rest) =>
                      Some (String (ascii_of_N (16 * h + l)) cs, rest)
                  | _, _, _, _, _ => None
                  end
              | _ => None
              end
            else
              match unescape e, read_chars r' with
              | Some x, Some (cs, rest) => Some (String x cs, rest)
              | _, _ => None
              end
        | EmptyString => None
        end
      else
        match read_chars r with
        | Some (cs, rest) => Some (String c cs, rest)
        | None => None
        end
  end.

Fixpoint read_digits (acc : N) (s : string) : N * string :=
  match s with
  | String c r =>
      match digit_val c with
      | Some d => read_digits (10 * acc + d) r
      | None => (acc, s)
      end
  | EmptyString => (acc, s)
  end.

Definition starts_with_digit (s : string) : bool :=
  match s with
  | String c _ => bool_decide (is_Some (digit_val c))
  | EmptyString => false
  end.

Definition read_literal (lit : string) (v : json) (s : string) : option (json * string) :=
  if String.prefix lit s
  then Some (v, String.substring (String.length lit) (String.length s - String.length lit) s)
  else None.

Section Sequences.
Variable read_value : string → option (json * string).

(** The items of an array after the first one was announced. *)
Fixpoint read_items (fuel : nat) (s : string) : option (list json * string) :=
  match fuel with
  | O => None
  | S k =>
      match read_value s with
      | Some (v, r) =>
          match skip_ws r with
          | String "," r' =>
              match read_items k r' with
              | Some (vs, rest) => Some (v :: vs, rest)
              | None => None
              end
          | String "]" r' => Some ([v], r')
          | _ => None
          end
      | None => None
      end
  end.

Fixpoint read_members (fuel : nat) (s : string) : option (list (string * json) * string) :=
  match fuel with
  | O => None
  | S k =>
      match skip_ws s with
      | String q r0 =>
          if (N_of_ascii q =? 34)%N then
            match read_chars r0 with
            | Some (key, r1) =>
                match skip_ws r1 with
                | String ":" r2 =>
                    match read_value r2 with
                    | Some (v, r) =>
                        match skip_ws r with
                        | String "," r' =>
                            match read_members k r' with
                            | Some (kvs, rest) => Some ((key, v) :: kvs, rest)
                            | None => None
                            end
                        | String "}" r' => Some ([(key, v)], r')
                        | _ => None
                        end
                    | None => None
                    end
                | _ => None
                end
            | None => None
            end
          else None
      | EmptyString => None
      end
  end.
End Sequences.

Fixpoint read_value (fuel : nat) (s : string) : option (json * string) :=
  match fuel with
  | O => None
  | S k =>
      match skip_ws s with
      | EmptyString => None
      | String c r =>
          let n := N_of_ascii c in
          if (n =? 34)%N then
            match read_chars r with
            | Some (cs, rest) => Some (JStr cs, rest)
            | None => None
            end
          else if (n =? 91)%N then
            match skip_ws r with
            | String "]" r' => Some (JList [], r')
            | _ =>
                match read_items (read_value k) k r with
                | Some (vs, rest) => Some (JList vs, rest)
                | None => None
                end
            end
          else if (n =? 123)%N then
            match skip_ws r with
            | String "}" r' => Some (JDict [], r')
            | _ =>
                match read_members (read_value k) k r with
                | Some (kvs, rest) => Some (JDict kvs, rest)
                | None => None
                end
            end
          else if (n =? 45)%N then
            if starts_with_digit r then
              let '(d, rest) := read_digits 0 r in Some (JInt (- Z.of_N d), rest)
            else None
          else if starts_with_digit (String c r) then
            let '(d, rest) := read_digits 0 (String c r) in Some (JInt (Z.of_N d), rest)
          else if (n =? 116)%N then read_literal "true" (JBool true) (String c r)
          else if (n =? 102)%N then read_literal "false" (JBool false) (String c r)
          else if (n =? 110)%N then read_literal "null" JNull (String c r)
          else None
      end
  end.

(** A whole text: one value, then only white space. *)
Definition loads (s : string) : option json :=
  match read_value (S (String.length s)) s with
  | Some (v, rest) =>
      match skip_ws rest with
      | EmptyString => Some v
      | _ => None
      end
  | None => None
  end.

End json_reader.

(** ** The script *)

(** The module-level assignment [sizes = [...]]. *)
Definition sizes : list size_item :=
  [ SizeItem "favicon-16x16.png" 16;
    SizeItem "favicon-32x32.png" 32;
    SizeItem "apple-touch-icon.png" 180;
    SizeItem "android-chrome-192x192.png" 192;
    SizeItem "android-chrome-512x512.png" 512 ].

(** The dict literal bound to [manifest] in [generate_favicons]. *)
Definition manifest : json :=
  JDict
    [ ("name", JStr "Invent Alliance Limited");
      ("short_name", JStr "Invent Alliance");
      ("icons",
        JList
          [ JDict [ ("src", JStr "/android-chrome-192x192.png");
                    ("sizes", JStr "192x192");
                    ("type", JStr "image/png") ];
            JDict [ ("src", JStr "/android-chrome-512x512.png");
                    ("sizes", JStr "512x512");
                    ("type", JStr "image/png") ] ]);
      ("theme_color", JStr "#0f172a");
      ("background_color", JStr "#0f172a");
      ("display", JStr "standalone") ].

(** What [except Exception as e] prints. *)
Definition error_report (e : py_exc) : list string :=
  [ "Error generating favicons: " +:+ str e;
    String newline "Make sure Pillow is installed: pip install Pillow" ].

(** What is printed when the logo is missing. *)
Definition not_found_guidance : list string :=
  [ "Logo file not found!";
    "Please download the logo from:";
    "https://www.inventallianceco.com/wp-content/uploads/2018/01/invent_mainx1.png";
    "And save it as " +:+ in_quotes "logo.png" +:+ " in the project root." ].

(** The exit status of the interpreter: 0 when the module body returns,
    1 after an uncaught exception (130 for [KeyboardInterrupt]). *)
Definition exit_status (r : py_result unit) : Z :=
  match r with
  | Ok _ => 0
  | Raise KeyboardInterrupt => 130
  | Raise _ => 1
  end.

(** ** A small Pillow

    An instance of the parameters that Pillow stands for, small enough
    to run the script on concrete file systems: an image is its size, an
    image file is a format letter followed by the width and the height
    on 16 bits each. *)

Module Sample.

Definition image : Type := Z * Z.

Definition im_size (im : image) : Z * Z := im.

Definition byte_of (n : Z) : ascii := ascii_of_N (Z.to_N n).

Definition of_byte (c : ascii) : Z := Z.of_N (N_of_ascii c).

Definition format_letter (fmt : save_format) : ascii :=
  match fmt with
  | PNG => "P"%char
  | ICO => "I"%char
  end.

Definition fits (n : Z) : bool := (0 <=? n)%Z && (n <? 65536)%Z.

Definition encode (im : image) (fmt : save_format) : py_result string :=
  let '(w, h) := im in
  if fits w && fits h then
    Ok (String (format_letter fmt)
          (String (byte_of (w / 256)) (String (byte_of (w mod 256))
             (String (byte_of (h / 256)) (String (byte_of (h mod 256)) EmptyString)))))
  else Raise (OtherException "image size out of range").

Definition decode (data : string) : py_result image :=
  match data with
  | String _ (String a (String b (String c (String d EmptyString)))) =>
      Ok (256 * of_byte a + of_byte b, 256 * of_byte c + of_byte d)
  | _ => Raise (OtherException "cannot identify image file")
  end.

Definition resize (im : image) (sz : Z * Z) (resample : Resampling) : py_result image :=
  Ok sz.

(** A save that raises in encoding has written only the format letter,
    and removes the file if it had created it. *)
Definition partial (im : image) (fmt : save_format) : string :=
  String (format_letter fmt) EmptyString.

Definition removes_created : bool := true.

(** The decoder of a run in which the user interrupts the decoding. *)
Definition interrupted (data : string) : py_result image := Raise KeyboardInterrupt.

(** [__file__] *)
Definition script : string := "/srv/site/scripts/generate-favicon-python.py".

(** A logo of 300 by 200 pixels. *)
Definition logo_data : string :=
  String "P" (String (byte_of 1) (String (byte_of 44)
    (String (byte_of 0) (String (byte_of 200) EmptyString)))).

(** A project with its logo and nothing else. *)
Definition fresh : gmap string node := {[ "/srv/site/logo.png" := File logo_data ]}.

(** A project without a logo. *)
Definition no_logo : gmap string node := ∅.

(** A project in which [public] is a regular file. *)
Definition public_is_file : gmap string node :=
  <["/srv/site/public" := File "not a directory"]> fresh.

(** A project in which the place of [favicon.ico] is taken by a directory. *)
Definition ico_is_dir : gmap string node :=
  <["/srv/site/public/favicon.ico" := Dir]> (<["/srv/site/public" := Dir]> fresh).

(** The same project with a manifest left by an earlier run. *)
Definition stale_manifest : gmap string node :=
  <["/srv/site/public/site.webmanifest" := File "{}"]> ico_is_dir.


(** [__file__] when the script is started from the project root by a
    relative path. *)
Definition relative_script : string := "scripts/generate-favicon-python.py".

End Sample.

Section Script.

(** [__file__] *)
Variable script_file : string.

(** Pillow: the type of images with [Image.size], the decoder behind
    [Image.open], [Image.resize], the encoders behind [Image.save], what
    an encoder that raises had written to the file, and whether a save
    that raises removes the file it had created. *)
Context {Image : Type}.
Variable im_size : Image → Z * Z.
Variable pil_open : string → py_result Image.
Variable pil_resize : Image → Z * Z → Resampling → py_result Image.
Variable pil_encode : Image → save_format → py_result string.
Variable pil_partial : Image → save_format → string.
Variable pil_removes_created : bool.

Definition logo_path : string :=
  os_path.join (os_path.dirname (os_path.dirname script_file)) "logo.png".

Definition public_dir : string :=
  os_path.join (os_path.dirname (os_path.dirname script_file)) "public".

(** [Image.open(fp)] *)
Definition Image_open (fp : string) : M Image :=
  fun w =>
    match w_fs w !! fp with
    | Some (File data) => (pil_open data, w)
    | Some Dir => (Raise (IsADirectoryError fp), w)
    | None => (Raise (FileNotFoundError fp), w)
    end.

(** [im.resize(size, resample)] *)
Definition Image_resize (im : Image) (sz : Z * Z) (resample : Resampling) : M Image :=
  fun w => (pil_resize im sz resample, w).

(** What a save that raises while encoding leaves: the file holds what
    the encoder had written, unless the save had created the file and
    removes it again. *)
Definition after_failed_save (im : Image) (fmt : save_format) (fp : string)
    (fs : gmap string node) : gmap string node :=
  match fs !! fp with
  | None => if pil_removes_created then fs else <[fp := File (pil_partial im fmt)]> fs
  | Some _ => <[fp := File (pil_partial im fmt)]> fs
  end.

(** [im.save(fp, format)]: the target is opened for writing, which
    raises on a directory, and the encoded image is written to it. *)
Definition Image_save (im : Image) (fp : string) (fmt : save_format) : M unit :=
  fun w =>
    match w_fs w !! fp with
    | Some Dir => (Raise (IsADirectoryError fp), add_log (FsEvent (Save fp fmt) None) w)
    | _ =>
        match pil_encode im fmt with
        | Ok data =>
            (Ok tt, add_log (FsEvent (Save fp fmt) (Some data))
                      (set_fs (insert fp (File data)) w))
        | Raise e =>
            (Raise e, add_log (FsEvent (Save fp fmt) None)
                        (set_fs (after_failed_save im fmt fp) w))
        end
    end.

(** The body of the [for item in sizes] loop. *)
Definition save_png (logo : Image) (item : size_item) : M unit :=
  let name := name item in
  let size := size item in
  favicon <- Image_resize logo (size, size) LANCZOS ;;
  let output_path := os_path.join public_dir name in
  Image_save favicon output_path PNG ;;
  print ("Generated " +:+ name).

(** The body of the [try] statement. *)
Definition try_body : M unit :=
  logo <- Image_open logo_path ;;
  items <- get_sizes ;;
  for_each items (save_png logo) ;;
  favicon_32 <- Image_resize logo (32, 32) LANCZOS ;;
  let favicon_ico_path := os_path.join public_dir "favicon.ico" in
  Image_save favicon_32 favicon_ico_path ICO ;;
  print "Generated favicon.ico" ;;
  let manifest_path := os_path.join public_dir "site.webmanifest" in
  write_text manifest_path (json_dumps manifest 2) ;;
  print "Generated site.webmanifest" ;;
  print (String newline "All favicons generated successfully!") ;;
  print "Files are in the public/ directory".

(** The handler of [except Exception as e]. *)
Definition except_handler (e : py_exc) : M unit :=
  print ("Error generating favicons: " +:+ str e) ;;
  print (String newline "Make sure Pillow is installed: pip install Pillow").

Definition generate_favicons : M unit :=
  found <- os_path_exists logo_path ;;
  if negb found then
    print "Logo file not found!" ;;
    print "Please download the logo from:" ;;
    print "https://www.inventallianceco.com/wp-content/uploads/2018/01/invent_mainx1.png" ;;
    print ("And save it as " +:+ in_quotes "logo.png" +:+ " in the project root.")
  else
    os_makedirs public_dir true ;;
    print "Generating favicons..." ;;
    try_except_Exception try_body except_handler.

(** The state of the process once the module-level assignments have
    run, on a file system [fs]. *)
Definition module_init (fs : gmap string node) : world :=
  World fs sizes [] [].

(** Running the script: [if __name__ == '__main__': generate_favicons()]. *)
Definition run_script (fs : gmap string node) : py_result unit * world :=
  generate_favicons (module_init fs).

(** ** Stages: the image outputs seen uniformly

    The five passes of the loop and the icon that follows them do the
    same thing: resize the logo to a square, save it, print a line. *)

Record stage : Type := Stage {
  st_px : Z;
  st_path : string;
  st_fmt : save_format;
  st_line : string
}.

Definition run_stage (logo : Image) (st : stage) : M unit :=
  im <- Image_resize logo (st_px st, st_px st) LANCZOS ;;
  Image_save im (st_path st) (st_fmt st) ;;
  print (st_line st).

Definition png_stage (item : size_item) : stage :=
  Stage (size item) (os_path.join public_dir (name item)) PNG ("Generated " +:+ name item).

Definition ico_stage : stage :=
  Stage 32 (os_path.join public_dir "favicon.ico") ICO "Generated favicon.ico".

Definition image_stages (items : list size_item) : list stage :=
  map png_stage items ++ [ico_stage].

Definition manifest_path : string := os_path.join public_dir "site.webmanifest".

Definition manifest_text : string := json_dumps manifest 2.

(** [data] is what stage [st] writes: the encoding of the logo resized
    to the stage's square with the Lanczos filter. *)
Definition stage_written (logo : Image) (sd : stage * string) : Prop :=
  ∃ im, pil_resize logo (st_px sd.1, st_px sd.1) LANCZOS = Ok im
        ∧ pil_encode im (st_fmt sd.1) = Ok sd.2.

Definition save_call (st : stage) : fs_call := Save (st_path st) (st_fmt st).

(** The world after a stage that completed. *)
Definition wrote (w : world) (sd : stage * string) : world :=
  add_stdout (st_line sd.1)
    (add_log (FsEvent (save_call sd.1) (Some sd.2))
       (set_fs (insert (st_path sd.1) (File sd.2)) w)).

(** How a stage started in [w] raises [e] and leaves [w']: in resizing,
    in opening a target that is a directory, or in encoding. *)
Inductive stage_failure (logo : Image) (st : stage) (w : world) : py_exc → world → Prop :=
| fail_resize e :
    pil_resize logo (st_px st, st_px st) LANCZOS = Raise e →
    stage_failure logo st w e w
| fail_directory im :
    pil_resize logo (st_px st, st_px st) LANCZOS = Ok im →
    w_fs w !! st_path st = Some Dir →
    stage_failure logo st w (IsADirectoryError (st_path st))
      (add_log (FsEvent (save_call st) None) w)
| fail_encode im e :
    pil_resize logo (st_px st, st_px st) LANCZOS = Ok im →
    w_fs w !! st_path st ≠ Some Dir →
    pil_encode im (st_fmt st) = Raise e →
    stage_failure logo st w e
      (add_log (FsEvent (save_call st) None)
         (set_fs (after_failed_save im (st_fmt st) (st_path st)) w)).

(** The world once the manifest is written and the last lines printed. *)
Definition finished (w : world) : world :=
  add_stdout "Files are in the public/ directory"
    (add_stdout (String newline "All favicons generated successfully!")
       (add_stdout "Generated site.webmanifest"
          (add_log (FsEvent (WriteText manifest_path) (Some manifest_text))
             (set_fs (insert manifest_path (File manifest_text)) w)))).

(** The file system calls of a complete run, in order: those that write
    a file, after the one that ensures the directory. *)
Definition file_calls : list fs_call :=
  map save_call (image_stages sizes) ++ [WriteText manifest_path].

Definition all_calls : list fs_call := Makedirs public_dir :: file_calls.

(** The seven output files. *)
Definition output_names : list string :=
  [ "favicon-16x16.png"; "favicon-32x32.png"; "apple-touch-icon.png";
    "android-chrome-192x192.png"; "android-chrome-512x512.png";
    "favicon.ico"; "site.webmanifest" ].

Definition output_paths : list string := map (os_path.join public_dir) output_names.

(** A run that printed the final confirmation. *)
Definition successful_run (fs : gmap string node) (w' : world) : Prop :=
  run_script fs = (Ok tt, w')
  ∧ last (w_stdout w') = Some "Files are in the public/ directory".

Definition root : string := os_path.dirname (os_path.dirname script_file).

(** What [os.path.join root] puts before a relative name. *)
Definition root_prefix : string :=
  if is_empty root || endswith_sep root then root else root +:+ String sep EmptyString.

Definition fs_write (fs : gmap string node) (pd : string * string) : gmap string node :=
  <[pd.1 := File pd.2]> fs.

Definition stage_file (sd : stage * string) : string * string := (st_path sd.1, sd.2).

Definition stage_event (sd : stage * string) : fs_event :=
  FsEvent (save_call sd.1) (Some sd.2).

(** The outcomes of the body from a world [w]: the logo cannot be
    opened; a stage fails after some completed ones; the manifest
    cannot be opened for writing; everything is written. *)
Inductive body_outcome (w : world) : py_result unit → world → Prop :=
| body_open_fails e :
    Image_open logo_path w = (Raise e, w) →
    body_outcome w (Raise e) w
| body_stage_fails data logo writes st rest e w' :
    w_fs w !! logo_path = Some (File data) →
    pil_open data = Ok logo →
    Forall (stage_written logo) writes →
    image_stages (w_sizes w) = writes.*1 ++ st :: rest →
    stage_failure logo st (foldl wrote w writes) e w' →
    body_outcome w (Raise e) w'
| body_manifest_fails data logo writes :
    w_fs w !! logo_path = Some (File data) →
    pil_open data = Ok logo →
    Forall (stage_written logo) writes →
    image_stages (w_sizes w) = writes.*1 →
    w_fs (foldl wrote w writes) !! manifest_path = Some Dir →
    body_outcome w (Raise (IsADirectoryError manifest_path))
      (add_log (FsEvent (WriteText manifest_path) None) (foldl wrote w writes))
| body_completes data logo writes :
    w_fs w !! logo_path = Some (File data) →
    pil_open data = Ok logo →
    Forall (stage_written logo) writes →
    image_stages (w_sizes w) = writes.*1 →
    w_fs (foldl wrote w writes) !! manifest_path ≠ Some Dir →
    body_outcome w (Ok tt) (finished (foldl wrote w writes)).

(** The file system once [os.makedirs] has returned. *)
Definition ensure_dir (fs : gmap string node) : gmap string node :=
  match fs !! public_dir with
  | None => <[public_dir := Dir]> fs
  | Some _ => fs
  end.

(** The world in which the body of [try] starts. *)
Definition started (fs : gmap string node) : world :=
  World (ensure_dir fs) sizes ["Generating favicons..."] [FsEvent (Makedirs public_dir) None].

(** The names of the targets of [all_calls], relative to the project root. *)
Definition target_names : list string :=
  [ "public";
    "public/favicon-16x16.png"; "public/favicon-32x32.png";
    "public/apple-touch-icon.png"; "public/android-chrome-192x192.png";
    "public/android-chrome-512x512.png"; "public/favicon.ico";
    "public/site.webmanifest" ].

(** A call that wrote [data], as logged. *)
Definition file_event (cd : fs_call * string) : fs_event := FsEvent cd.1 (Some cd.2).

Definition call_file (cd : fs_call * string) : string * string := (call_path cd.1, cd.2).

(** The calls of a log that wrote a file. *)
Definition written_calls (log : list fs_event) : list fs_call :=
  omap (λ ev, match ev_wrote ev with Some _ => Some (ev_call ev) | None => None end) log.

(** Modelled after section 6 of the specification: the structure the
    manifest file must hold once parsed. *)
Definition spec_manifest : json :=
  JDict
    [ ("name", JStr "Invent Alliance Limited");
      ("short_name", JStr "Invent Alliance");
      ("icons",
        JList
          [ JDict [ ("src", JStr "/android-chrome-192x192.png");
                    ("sizes", JStr "192x192");
                    ("type", JStr "image/png") ];
            JDict [ ("src", JStr "/android-chrome-512x512.png");
                    ("sizes", JStr "512x512");
                    ("type", JStr "image/png") ] ]);
      ("theme_color", JStr "#0f172a");
      ("background_color", JStr "#0f172a");
      ("display", JStr "standalone") ].

(** The files of a successful run: those of the stages, then the manifest. *)
Definition files_of (writes : list (stage * string)) : list (string * string) :=
  (stage_file <$> writes) ++ [(manifest_path, manifest_text)].

(** A call that wrote no file, as logged: [os.makedirs], and a call that
    raised. *)
Definition bare_event (c : fs_call) : fs_event := FsEvent c None.

(** The world the handler of [except Exception] leaves. *)
Definition reported (e : py_exc) (w : world) : world :=
  World (w_fs w) (w_sizes w) (w_stdout w ++ error_report e) (w_log w).

(** The write of a completed stage, as a call with its data. *)
Definition stage_done (sd : stage * string) : fs_call * string := (save_call sd.1, sd.2).

(** The lines printed once the manifest is written. *)
Definition finish_lines : list string :=
  [ "Generated site.webmanifest";
    String newline "All favicons generated successfully!";
    "Files are in the public/ directory" ].

(** [d[k]] on a JSON object, [None] for a missing key or another value. *)
Definition json_get (k : string) (v : json) : option json :=
  match v with
  | JDict items => snd <$> List.find (λ kv, String.eqb kv.1 k) items
  | _ => None
  end.

(** The entries of [manifest['icons']]. *)
Definition manifest_icons : list json :=
  match json_get "icons" manifest with
  | Some (JList icons) => icons
  | _ => []
  end.

(** ** The functions on small inputs *)

Example dirname_of_script :
  os_path.dirname (os_path.dirname "/srv/site/scripts/generate-favicon-python.py")
  = "/srv/site".
Proof. reflexivity. Qed.

Example dirname_relative : os_path.dirname "scripts/generate-favicon-python.py" = "scripts".
Proof. reflexivity. Qed.

Example dirname_no_directory : os_path.dirname "generate-favicon-python.py" = EmptyString.
Proof. reflexivity. Qed.

Example dirname_keeps_root : os_path.dirname "/scripts" = "/".
Proof. reflexivity. Qed.

Example dirname_strips_separators : os_path.dirname "/srv//scripts" = "/srv".
Proof. reflexivity. Qed.

Example join_adds_separator : os_path.join "/srv/site" "logo.png" = "/srv/site/logo.png".
Proof. reflexivity. Qed.

Example join_after_separator : os_path.join "/" "public" = "/public".
Proof. reflexivity. Qed.

Example join_empty : os_path.join EmptyString "logo.png" = "logo.png".
Proof. reflexivity. Qed.

Example join_absolute : os_path.join "/srv/site" "/tmp/x" = "/tmp/x".
Proof. reflexivity. Qed.

Example dumps_empty_containers :
  json_dumps (JList [JDict []; JList []]) 2 = unlines ["["; "  {},"; "  []"; "]"].
Proof. reflexivity. Qed.

Example dumps_scalars :
  json_dumps (JList [JNull; JBool true; JInt (-12)]) 2
  = unlines ["["; "  null,"; "  true,"; "  -12"; "]"].
Proof. reflexivity. Qed.

Example dumps_escapes :
  json_dumps (JStr (String dquote (String newline "/#\"))) 2
  = in_quotes (String "\" (String dquote "\n/#\\")).
Proof. reflexivity. Qed.

(** The text of the manifest, line by line. *)
Example manifest_text_lines :
  json_dumps manifest 2
  = unlines
      [ "{";
        "  " +:+ in_quotes "name" +:+ ": " +:+ in_quotes "Invent Alliance Limited" +:+ ",";
        "  " +:+ in_quotes "short_name" +:+ ": " +:+ in_quotes "Invent Alliance" +:+ ",";
        "  " +:+ in_quotes "icons" +:+ ": [";
        "    {";
        "      " +:+ in_quotes "src" +:+ ": " +:+ in_quotes "/android-chrome-192x192.png" +:+ ",";
        "      " +:+ in_quotes "sizes" +:+ ": " +:+ in_quotes "192x192" +:+ ",";
        "      " +:+ in_quotes "type" +:+ ": " +:+ in_quotes "image/png";
        "    },";
        "    {";
        "      " +:+ in_quotes "src" +:+ ": " +:+ in_quotes "/android-chrome-512x512.png" +:+ ",";
        "      " +:+ in_quotes "sizes" +:+ ": " +:+ in_quotes "512x512" +:+ ",";
        "      " +:+ in_quotes "type" +:+ ": " +:+ in_quotes "image/png";
        "    }";
        "  ],";
        "  " +:+ in_quotes "theme_color" +:+ ": " +:+ in_quotes "#0f172a" +:+ ",";
        "  " +:+ in_quotes "background_color" +:+ ": " +:+ in_quotes "#0f172a" +:+ ",";
        "  " +:+ in_quotes "display" +:+ ": " +:+ in_quotes "standalone";
        "}" ].
Proof. reflexivity. Qed.

Example loads_rejects_trailing_comma : json_reader.loads "[1, 2,]" = None.
Proof. reflexivity. Qed.

Example loads_rejects_trailing_text : json_reader.loads "[1, 2] x" = None.
Proof. reflexivity. Qed.

Example loads_reads_nested :
  json_reader.loads
    ("{ " +:+ in_quotes "a" +:+ " : [1, -2, true, null, " +:+ in_quotes "x\u0041\n" +:+ "] }")
  = Some (JDict [("a", JList [JInt 1; JInt (-2); JBool true; JNull;
                              JStr ("xA" +:+ String newline EmptyString)])]).
Proof. reflexivity. Qed.

(** ** Paths *)

Lemma append_assoc (a b c : string) : (a +:+ b) +:+ c = a +:+ (b +:+ c).
Proof.
  induction a as [|x a IH]; [done |].
  change (String x ((a +:+ b) +:+ c) = String x (a +:+ (b +:+ c))). by rewrite IH.
Qed.

Lemma endswith_sep_append (a : string) (c : ascii) (r : string) :
  endswith_sep (a +:+ String c r) = endswith_sep (String c r).
Proof.
  induction a as [|x a IH]; [done |].
  change (String x a +:+ String c r) with (String x (a +:+ String c r)).
  destruct a; simpl in *; exact IH.
Qed.

Lemma is_empty_append (a : string) (c : ascii) (r : string) :
  is_empty (a +:+ String c r) = false.
Proof. by destruct a. Qed.

Lemma join_root (n : string) :
  startswith_sep n = false → os_path.join root n = root_prefix +:+ n.
Proof.
  intros Hn. unfold os_path.join, root_prefix. rewrite Hn.
  destruct (is_empty root || endswith_sep root); [done |].
  by rewrite append_assoc.
Qed.

Lemma logo_path_eq : logo_path = root_prefix +:+ "logo.png".
Proof. by apply join_root. Qed.

Lemma public_dir_eq : public_dir = root_prefix +:+ "public".
Proof. by apply join_root. Qed.

Lemma join_public (n : string) :
  startswith_sep n = false →
  os_path.join public_dir n = root_prefix +:+ ("public/" +:+ n).
Proof.
  intros Hn. unfold os_path.join. rewrite Hn, public_dir_eq.
  rewrite is_empty_append, endswith_sep_append.
  change (false || endswith_sep "public") with false. cbv iota.
  by rewrite append_assoc.
Qed.

Lemma root_prefix_inj (a b : string) : root_prefix +:+ a = root_prefix +:+ b → a = b.
Proof. apply String.app_inj. Qed.

(** ** Running the stages *)

Lemma for_each_cons {A} (x : A) (l : list A) (body : A → M unit) (w : world) :
  for_each (x :: l) body w =
  match body x w with
  | (Ok _, w') => for_each l body w'
  | (Raise e, w') => (Raise e, w')
  end.
Proof. reflexivity. Qed.

Lemma for_each_app {A} (l1 l2 : list A) (body : A → M unit) (w : world) :
  for_each (l1 ++ l2) body w = (for_each l1 body ;; for_each l2 body) w.
Proof.
  revert w. induction l1 as [|x l1 IH]; intros w; [done |].
  change (for_each ((x :: l1) ++ l2) body w) with (for_each (x :: l1 ++ l2) body w).
  unfold bind. rewrite !for_each_cons.
  destruct (body x w) as [[[]|e] w1]; [|done]. by rewrite IH.
Qed.

Lemma for_each_map {A B} (f : A → B) (l : list A) (body : B → M unit) (w : world) :
  for_each (map f l) body w = for_each l (λ x, body (f x)) w.
Proof.
  revert w. induction l as [|x l IH]; intros w; [done |].
  simpl. unfold bind. destruct (body (f x) w) as [[[]|e] w1]; [apply IH | done].
Qed.

(** A pass of the loop is a stage. *)
Lemma save_png_stage (logo : Image) (item : size_item) :
  save_png logo item = run_stage logo (png_stage item).
Proof. reflexivity. Qed.

(** One stage either completes, having written what [stage_written]
    says, or fails in one of the three ways of [stage_failure]. *)
Lemma run_stage_cases (logo : Image) (st : stage) (w : world) :
  (∃ data, stage_written logo (st, data)
           ∧ w_fs w !! st_path st ≠ Some Dir
           ∧ run_stage logo st w = (Ok tt, wrote w (st, data)))
  ∨ (∃ e w', stage_failure logo st w e w' ∧ run_stage logo st w = (Raise e, w')).
Proof.
  unfold run_stage, bind, Image_resize, Image_save, print.
  destruct (pil_resize logo (st_px st, st_px st) LANCZOS) as [im|e] eqn:Hres.
  - destruct (decide (w_fs w !! st_path st = Some Dir)) as [Hdir|Hdir].
    + right. eexists _, _. split; [by eapply fail_directory |]. by rewrite Hdir.
    + destruct (pil_encode im (st_fmt st)) as [data|e] eqn:Henc.
      * left. exists data. split; [by exists im |]. split; [done |].
        destruct (w_fs w !! st_path st) as [[|]|]; done.
      * right. eexists _, _. split; [by eapply fail_encode |].
        destruct (w_fs w !! st_path st) as [[|]|]; done.
  - right. eexists _, _. split; [by apply fail_resize | done].
Qed.

(** The stages run in order: a run of completed stages, then either the
    end of the list or the first stage that fails. *)
Lemma run_stages_cases (logo : Image) (stages : list stage) (w : world) :
  ∃ writes,
    Forall (stage_written logo) writes
    ∧ ((stages = writes.*1
        ∧ for_each stages (run_stage logo) w = (Ok tt, foldl wrote w writes))
       ∨ (∃ st rest e w',
             stages = writes.*1 ++ st :: rest
             ∧ stage_failure logo st (foldl wrote w writes) e w'
             ∧ for_each stages (run_stage logo) w = (Raise e, w'))).
Proof.
  revert w. induction stages as [|st stages IH]; intros w.
  - exists []. split; [constructor |]. by left.
  - rewrite for_each_cons.
    destruct (run_stage_cases logo st w) as [(data & Hd & _ & ->)|(e & w' & Hf & ->)].
    + destruct (IH (wrote w (st, data))) as (writes & Hw & Hcases).
      exists ((st, data) :: writes). split; [by constructor |].
      destruct Hcases as [[-> ->]|(st' & rest & e & w' & -> & Hf & ->)].
      * by left.
      * right. by exists st', rest, e, w'.
    + exists []. split; [constructor |]. right. by exists st, stages, e, w'.
Qed.

Lemma wrote_not_dir (w : world) (sd : stage * string) (p : string) :
  w_fs w !! p ≠ Some Dir → w_fs (wrote w sd) !! p ≠ Some Dir.
Proof.
  intros Hp. simpl. destruct (decide (st_path sd.1 = p)) as [->|Hne].
  - by rewrite lookup_insert_eq.
  - by rewrite lookup_insert_ne.
Qed.

(** Stages whose resizing and encoding succeed, and whose targets are
    not directories, all complete. *)
Lemma run_stages_ok (logo : Image) (writes : list (stage * string)) (w : world) :
  Forall (stage_written logo) writes →
  Forall (λ sd, w_fs w !! st_path sd.1 ≠ Some Dir) writes →
  for_each (writes.*1) (run_stage logo) w = (Ok tt, foldl wrote w writes).
Proof.
  revert w. induction writes as [|[st data] writes IH]; intros w Hw Hd; [done |].
  apply Forall_cons in Hw as [(im & Hres & Henc) Hw].
  apply Forall_cons in Hd as [Hd1 Hd].
  simpl in *. rewrite <- IH; [|done|].
  - unfold bind at 1. unfold run_stage, bind, Image_resize, Image_save, print.
    simpl. rewrite Hres, Henc.
    destruct (w_fs w !! st_path st) as [[|]|]; done.
  - eapply Forall_impl; [exact Hd |]. intros sd Hsd.
    by apply (wrote_not_dir w (st, data)).
Qed.

(** *** The world after a run of completed stages *)

Lemma wrote_all_fs (w : world) (writes : list (stage * string)) :
  w_fs (foldl wrote w writes) = foldl fs_write (w_fs w) (stage_file <$> writes).
Proof. revert w. induction writes as [|sd writes IH]; intros w; [done |]. simpl. by rewrite IH. Qed.

Lemma wrote_all_log (w : world) (writes : list (stage * string)) :
  w_log (foldl wrote w writes) = w_log w ++ (stage_event <$> writes).
Proof.
  revert w. induction writes as [|sd writes IH]; intros w; simpl.
  - by rewrite app_nil_r.
  - rewrite IH. simpl. by rewrite <- app_assoc.
Qed.

Lemma wrote_all_stdout (w : world) (writes : list (stage * string)) :
  w_stdout (foldl wrote w writes) = w_stdout w ++ ((λ sd, st_line sd.1) <$> writes).
Proof.
  revert w. induction writes as [|sd writes IH]; intros w; simpl.
  - by rewrite app_nil_r.
  - rewrite IH. simpl. by rewrite <- app_assoc.
Qed.

Lemma wrote_all_sizes (w : world) (writes : list (stage * string)) :
  w_sizes (foldl wrote w writes) = w_sizes w.
Proof. revert w. induction writes as [|sd writes IH]; intros w; [done |]. simpl. by rewrite IH. Qed.

Lemma fs_write_all_other (fs : gmap string node) (files : list (string * string)) (p : string) :
  p ∉ files.*1 → foldl fs_write fs files !! p = fs !! p.
Proof.
  revert fs. induction files as [|[q d] files IH]; intros fs Hp; [done |].
  simpl in *. apply not_elem_of_cons in Hp as [Hne Hp].
  rewrite IH by done. unfold fs_write. simpl. by rewrite lookup_insert_ne.
Qed.

Lemma fs_write_all_lookup (fs : gmap string node) (files : list (string * string))
    (p d : string) :
  NoDup files.*1 → (p, d) ∈ files → foldl fs_write fs files !! p = Some (File d).
Proof.
  revert fs. induction files as [|[q d'] files IH]; intros fs Hnd Hin.
  - by apply elem_of_nil in Hin.
  - simpl in *. apply NoDup_cons in Hnd as [Hq Hnd].
    apply elem_of_cons in Hin as [[= -> ->]|Hin].
    + rewrite fs_write_all_other by done. unfold fs_write. simpl.
      by rewrite lookup_insert_eq.
    + by apply IH.
Qed.

Lemma fs_write_all_keeps (fs : gmap string node) (files : list (string * string)) (p : string) :
  is_Some (fs !! p) → is_Some (foldl fs_write fs files !! p).
Proof.
  revert fs. induction files as [|[q d] files IH]; intros fs Hp; [done |].
  simpl. apply IH. unfold fs_write. simpl.
  destruct (decide (q = p)) as [->|Hne].
  - rewrite lookup_insert_eq. by eexists.
  - by rewrite lookup_insert_ne.
Qed.

(** ** The body of [try], case by case *)

Lemma try_body_eq (w : world) :
  try_body w =
  match w_fs w !! logo_path with
  | Some (File data) =>
      match pil_open data with
      | Ok logo =>
          match for_each (image_stages (w_sizes w)) (run_stage logo) w with
          | (Ok _, w2) =>
              match w_fs w2 !! manifest_path with
              | Some Dir =>
                  (Raise (IsADirectoryError manifest_path),
                   add_log (FsEvent (WriteText manifest_path) None) w2)
              | _ => (Ok tt, finished w2)
              end
          | (Raise e, w2) => (Raise e, w2)
          end
      | Raise e => (Raise e, w)
      end
  | Some Dir => (Raise (IsADirectoryError logo_path), w)
  | None => (Raise (FileNotFoundError logo_path), w)
  end.
Proof.
  unfold try_body, Image_open, get_sizes, bind.
  destruct (w_fs w !! logo_path) as [[data|]|]; [|done..].
  destruct (pil_open data) as [logo|e]; [|done].
  unfold image_stages. rewrite for_each_app. unfold bind. rewrite for_each_map.
  change (λ x, run_stage logo (png_stage x)) with (save_png logo).
  destruct (for_each (w_sizes w) (save_png logo) w) as [[[]|e] w1]; [|done].
  rewrite for_each_cons. unfold run_stage, ico_stage, bind, Image_resize.
  cbn [st_px st_path st_fmt st_line].
  destruct (pil_resize logo (32, 32) LANCZOS) as [im|e]; [|done].
  destruct (Image_save im (os_path.join public_dir "favicon.ico") ICO w1)
    as [[[]|e] w2]; [|done].
  unfold print, write_text, for_each, ret. fold manifest_path. fold manifest_text.
  cbn [w_fs add_stdout].
  destruct (w_fs w2 !! manifest_path) as [[|]|]; done.
Qed.

Lemma try_body_outcome (w : world) (r : py_result unit) (w' : world) :
  try_body w = (r, w') → body_outcome w r w'.
Proof.
  rewrite try_body_eq. intros Hrun.
  destruct (w_fs w !! logo_path) as [[data|]|] eqn:Hlogo.
  - destruct (pil_open data) as [logo|e] eqn:Hopen.
    + destruct (run_stages_cases logo (image_stages (w_sizes w)) w)
        as (writes & Hw & [[Hst Hok]|(st & rest & e & w2 & Hst & Hf & Hfail)]).
      * rewrite Hok in Hrun.
        destruct (decide (w_fs (foldl wrote w writes) !! manifest_path = Some Dir))
          as [Hdir|Hdir].
        -- rewrite Hdir in Hrun. injection Hrun as <- <-.
           by eapply body_manifest_fails.
        -- assert (r = Ok tt ∧ w' = finished (foldl wrote w writes)) as [-> ->].
           { destruct (w_fs (foldl wrote w writes) !! manifest_path) as [[|]|];
               by injection Hrun as <- <-. }
           by eapply body_completes.
      * rewrite Hfail in Hrun. injection Hrun as <- <-.
        by eapply body_stage_fails.
    + injection Hrun as <- <-. apply body_open_fails.
      unfold Image_open. by rewrite Hlogo, Hopen.
  - injection Hrun as <- <-. apply body_open_fails.
    unfold Image_open. by rewrite Hlogo.
  - injection Hrun as <- <-. apply body_open_fails.
    unfold Image_open. by rewrite Hlogo.
Qed.

(** ** The whole run, case by case *)

Lemma run_script_eq (fs : gmap string node) :
  run_script fs =
  match fs !! logo_path with
  | None => (Ok tt, World fs sizes not_found_guidance [])
  | Some _ =>
      match fs !! public_dir with
      | Some (File _) =>
          (Raise (FileExistsError public_dir),
           World fs sizes [] [FsEvent (Makedirs public_dir) None])
      | _ => try_except_Exception try_body except_handler (started fs)
      end
  end.
Proof.
  unfold run_script, generate_favicons, bind at 1, os_path_exists, module_init.
  cbn [w_fs].
  destruct (fs !! logo_path) as [n|] eqn:Hlogo.
  - rewrite bool_decide_eq_true_2 by by eexists. cbn [negb].
    unfold bind at 1, os_makedirs. cbn [w_fs].
    unfold started, ensure_dir.
    destruct (fs !! public_dir) as [[|]|]; done.
  - rewrite bool_decide_eq_false_2 by (by intros [? ?]). done.
Qed.

Lemma handler_eq (e : py_exc) (w : world) :
  except_handler e w = (Ok tt, World (w_fs w) (w_sizes w) (w_stdout w ++ error_report e) (w_log w)).
Proof.
  unfold except_handler, bind, print, add_stdout, error_report. cbn.
  by rewrite <- app_assoc.
Qed.

(** ** The targets are distinct paths *)

Lemma target_paths_eq : call_path <$> all_calls = (String.append root_prefix) <$> target_names.
Proof.
  cbv [all_calls file_calls image_stages manifest_path sizes map app fmap list_fmap
       save_call png_stage ico_stage st_path st_fmt call_path name target_names].
  rewrite !join_public by done. by rewrite public_dir_eq.
Qed.

Lemma target_paths_NoDup : NoDup (call_path <$> all_calls).
Proof.
  rewrite target_paths_eq. apply (NoDup_fmap_2 _).
  apply (bool_decide_unpack _). by vm_compute.
Qed.

Lemma file_paths_NoDup : NoDup (call_path <$> file_calls).
Proof. pose proof target_paths_NoDup as H. by apply NoDup_cons in H as [_ H]. Qed.

Lemma public_dir_not_file_path : public_dir ∉ call_path <$> file_calls.
Proof. pose proof target_paths_NoDup as H. by apply NoDup_cons in H as [H _]. Qed.

Lemma logo_path_not_target : logo_path ∉ call_path <$> all_calls.
Proof.
  rewrite target_paths_eq, logo_path_eq. intros Hin.
  apply list_elem_of_fmap in Hin as (n & Heq & Hin).
  apply root_prefix_inj in Heq as <-.
  revert Hin. apply (bool_decide_unpack _). by vm_compute.
Qed.

Lemma output_paths_eq : output_paths = call_path <$> file_calls.
Proof. reflexivity. Qed.

Lemma output_paths_inside :
  output_paths = (λ n, public_dir +:+ String sep n) <$> output_names.
Proof.
  cbv [output_paths output_names map fmap list_fmap].
  rewrite !join_public by done. rewrite public_dir_eq.
  by rewrite !append_assoc.
Qed.

Lemma manifest_path_file_call : manifest_path ∈ call_path <$> file_calls.
Proof.
  unfold file_calls. rewrite fmap_app. apply elem_of_app. right. cbn. apply list_elem_of_here.
Qed.

Lemma stage_paths_sub (writes : list (stage * string)) :
  writes.*1 = image_stages sizes →
  (stage_file <$> writes).*1 ++ [manifest_path] = call_path <$> file_calls.
Proof.
  intros Hw. unfold file_calls. rewrite fmap_app, <- Hw. f_equal.
  rewrite <- !list_fmap_compose. by apply list_fmap_ext.
Qed.

(** ** Successful runs *)

Lemma logo_path_not_public_dir : logo_path ≠ public_dir.
Proof.
  intros Heq. apply logo_path_not_target. rewrite Heq.
  unfold all_calls. rewrite fmap_cons. apply list_elem_of_here.
Qed.

Lemma ensure_dir_other (fs : gmap string node) (p : string) :
  p ≠ public_dir → ensure_dir fs !! p = fs !! p.
Proof.
  intros Hne. unfold ensure_dir. destruct (fs !! public_dir); [done |].
  by rewrite lookup_insert_ne.
Qed.

Lemma ensure_dir_public (fs : gmap string node) :
  (fs !! public_dir = None ∨ fs !! public_dir = Some Dir) →
  ensure_dir fs !! public_dir = Some Dir.
Proof.
  unfold ensure_dir. intros [H|H]; rewrite H; [by rewrite lookup_insert_eq | done].
Qed.

Lemma last_error_report (l : list string) (e : py_exc) :
  last (l ++ error_report e)
  = Some (String newline "Make sure Pillow is installed: pip install Pillow").
Proof. unfold error_report. by rewrite (last_app_cons l [_] _). Qed.

(** A successful run read and decoded the logo, found the output path
    absent or a directory, completed every stage, and wrote the manifest. *)
Lemma successful_inv (fs : gmap string node) (w' : world) :
  successful_run fs w' →
  ∃ data logo writes,
    fs !! logo_path = Some (File data)
    ∧ pil_open data = Ok logo
    ∧ (fs !! public_dir = None ∨ fs !! public_dir = Some Dir)
    ∧ Forall (stage_written logo) writes
    ∧ writes.*1 = image_stages sizes
    ∧ w_fs (foldl wrote (started fs) writes) !! manifest_path ≠ Some Dir
    ∧ w' = finished (foldl wrote (started fs) writes).
Proof.
  intros [Hrun Hlast]. rewrite run_script_eq in Hrun.
  destruct (fs !! logo_path) as [n|] eqn:Hlogo.
  - assert ((fs !! public_dir = None ∨ fs !! public_dir = Some Dir)
            ∧ try_except_Exception try_body except_handler (started fs) = (Ok tt, w'))
      as [Hdir Htry].
    { revert Hrun. destruct (fs !! public_dir) as [[|]|]; intros Hrun.
      - done.
      - split; [by right | done].
      - split; [by left | done]. }
    clear Hrun. unfold try_except_Exception in Htry.
    destruct (try_body (started fs)) as [r3 w3] eqn:Hbody.
    apply try_body_outcome in Hbody.
    destruct r3 as [[]|e].
    + injection Htry as <-.
      inversion Hbody as [| | |data logo writes Hl Hopen Hw Hst Hm]; subst.
      exists data, logo, writes. split_and!; try done.
      simpl in Hl. rewrite ensure_dir_other in Hl by apply logo_path_not_public_dir.
      congruence.
    + destruct (is_Exception e); [|done].
      rewrite handler_eq in Htry. injection Htry as <-.
      simpl in Hlast. by rewrite last_error_report in Hlast.
  - injection Hrun as <-. simpl in Hlast. discriminate.
Qed.

Lemma finished_last (w : world) :
  last (w_stdout (finished w)) = Some "Files are in the public/ directory".
Proof. simpl. by rewrite last_snoc. Qed.

(** Conversely, these conditions make the run successful. *)
Lemma successful_intro (fs : gmap string node) (data : string) (logo : Image)
    (writes : list (stage * string)) :
  fs !! logo_path = Some (File data) →
  pil_open data = Ok logo →
  (fs !! public_dir = None ∨ fs !! public_dir = Some Dir) →
  Forall (stage_written logo) writes →
  writes.*1 = image_stages sizes →
  Forall (λ sd, ensure_dir fs !! st_path sd.1 ≠ Some Dir) writes →
  w_fs (foldl wrote (started fs) writes) !! manifest_path ≠ Some Dir →
  successful_run fs (finished (foldl wrote (started fs) writes)).
Proof.
  intros Hlogo Hopen Hdir Hw Hst Hnd Hm. split; [|apply finished_last].
  rewrite run_script_eq, Hlogo.
  assert (try_except_Exception try_body except_handler (started fs)
          = (Ok tt, finished (foldl wrote (started fs) writes))) as Htry.
  { unfold try_except_Exception. rewrite try_body_eq.
    change (w_fs (started fs)) with (ensure_dir fs).
    rewrite ensure_dir_other by apply logo_path_not_public_dir.
    rewrite Hlogo, Hopen. change (w_sizes (started fs)) with sizes.
    rewrite <- Hst, run_stages_ok by done.
    destruct (w_fs (foldl wrote (started fs) writes) !! manifest_path) as [[|]|]; done. }
  destruct Hdir as [-> | ->]; exact Htry.
Qed.

Lemma files_of_paths (writes : list (stage * string)) :
  writes.*1 = image_stages sizes → (files_of writes).*1 = call_path <$> file_calls.
Proof.
  intros Hw. unfold files_of. rewrite fmap_app. by apply stage_paths_sub.
Qed.

Lemma success_fs (fs : gmap string node) (writes : list (stage * string)) :
  w_fs (finished (foldl wrote (started fs) writes))
  = foldl fs_write (ensure_dir fs) (files_of writes).
Proof. unfold files_of. rewrite foldl_app. simpl. by rewrite wrote_all_fs. Qed.

Lemma success_log (fs : gmap string node) (writes : list (stage * string)) :
  w_log (finished (foldl wrote (started fs) writes))
  = bare_event (Makedirs public_dir)
    :: (stage_event <$> writes)
    ++ [FsEvent (WriteText manifest_path) (Some manifest_text)].
Proof. simpl. rewrite wrote_all_log. simpl. done. Qed.

Lemma success_sizes (fs : gmap string node) (writes : list (stage * string)) :
  w_sizes (finished (foldl wrote (started fs) writes)) = sizes.
Proof. simpl. by rewrite wrote_all_sizes. Qed.



Lemma written_calls_app (l1 l2 : list fs_event) :
  written_calls (l1 ++ l2) = written_calls l1 ++ written_calls l2.
Proof. apply omap_app. Qed.

Lemma written_calls_stage_events (writes : list (stage * string)) :
  written_calls (stage_event <$> writes) = save_call <$> writes.*1.
Proof.
  induction writes as [|sd writes IH]; [done |].
  cbn. unfold written_calls in IH. by rewrite IH.
Qed.

Lemma success_written (fs : gmap string node) (writes : list (stage * string)) :
  writes.*1 = image_stages sizes →
  written_calls (w_log (finished (foldl wrote (started fs) writes))) = file_calls.
Proof.
  intros Hw. rewrite success_log.
  change (bare_event (Makedirs public_dir) :: ?l)
    with ([bare_event (Makedirs public_dir)] ++ l).
  rewrite !written_calls_app, written_calls_stage_events, Hw. reflexivity.
Qed.

(** The file a stage of a successful run wrote is still there at the end. *)
Lemma success_stage_file (fs : gmap string node) (writes : list (stage * string))
    (st : stage) (data : string) :
  writes.*1 = image_stages sizes →
  (st, data) ∈ writes →
  w_fs (finished (foldl wrote (started fs) writes)) !! st_path st = Some (File data).
Proof.
  intros Hw Hin. rewrite success_fs. apply fs_write_all_lookup.
  - rewrite files_of_paths by done. apply file_paths_NoDup.
  - unfold files_of. apply elem_of_app. left.
    apply list_elem_of_fmap. by exists (st, data).
Qed.

Lemma success_manifest_file (fs : gmap string node) (writes : list (stage * string)) :
  w_fs (finished (foldl wrote (started fs) writes)) !! manifest_path
  = Some (File manifest_text).
Proof. simpl. by rewrite lookup_insert_eq. Qed.

Lemma success_other (fs : gmap string node) (writes : list (stage * string)) (p : string) :
  writes.*1 = image_stages sizes →
  p ∉ call_path <$> file_calls →
  w_fs (finished (foldl wrote (started fs) writes)) !! p = ensure_dir fs !! p.
Proof.
  intros Hw Hp. rewrite success_fs. apply fs_write_all_other.
  by rewrite files_of_paths.
Qed.

(** Every stage of the list has its write among those of a complete run. *)
Lemma stage_in_writes (writes : list (stage * string)) (st : stage) :
  st ∈ writes.*1 → ∃ data, (st, data) ∈ writes.
Proof.
  intros Hin. apply list_elem_of_fmap in Hin as ([st' data] & -> & Hin). by exists data.
Qed.

(** ** What Pillow guarantees

    [Image.resize] returns an image of the requested size; a PNG decodes
    to an image of the size that was encoded; so does an ICO made from a
    32x32 image (the largest frame of the container is the image itself). *)

Hypothesis resize_size : ∀ im sz resample im',
  pil_resize im sz resample = Ok im' → im_size im' = sz.

Hypothesis png_decodes : ∀ im data,
  pil_encode im PNG = Ok data →
  ∃ im', pil_open data = Ok im' ∧ im_size im' = im_size im.

Hypothesis ico_decodes : ∀ im data,
  im_size im = (32, 32) →
  pil_encode im ICO = Ok data →
  ∃ im', pil_open data = Ok im' ∧ im_size im' = (32, 32).

(** ** The outputs of a successful run *)

(** C1: on a successful run, whatever the size of the source image, each
    of the five entries of [sizes] (16, 32, 180, 192, 512) has its PNG
    made by resizing the decoded logo to the square [(size, size)] with
    the Lanczos filter; the file at the entry's name in the output
    directory holds the PNG encoding of that image, and decodes to an
    image of [size] by [size] pixels. *)
Theorem png_outputs_resized (fs : gmap string node) (w' : world) :
  successful_run fs w' →
  size <$> sizes = [16; 32; 180; 192; 512]
  ∧ ∃ data logo,
      fs !! logo_path = Some (File data)
      ∧ pil_open data = Ok logo
      ∧ ∀ item, item ∈ sizes →
          ∃ favicon png decoded,
            pil_resize logo (size item, size item) LANCZOS = Ok favicon
            ∧ im_size favicon = (size item, size item)
            ∧ pil_encode favicon PNG = Ok png
            ∧ w_fs w' !! os_path.join public_dir (name item) = Some (File png)
            ∧ pil_open png = Ok decoded
            ∧ im_size decoded = (size item, size item).
Proof.
  intros Hrun. split; [done |].
  destruct (successful_inv fs w' Hrun)
    as (data & logo & writes & Hlogo & Hopen & _ & Hw & Hst & _ & ->).
  exists data, logo. split_and!; [done..|].
  intros item Hitem.
  assert (png_stage item ∈ writes.*1) as Hin.
  { rewrite Hst. unfold image_stages. apply elem_of_app. left.
    apply list_elem_of_fmap. by exists item. }
  apply stage_in_writes in Hin as [png Hin].
  pose proof (proj1 (Forall_forall _ _) Hw _ Hin) as (favicon & Hres & Henc).
  simpl in Hres, Henc.
  destruct (png_decodes favicon png Henc) as (decoded & Hdec & Hsz).
  pose proof (resize_size _ _ _ _ Hres) as Hfav.
  exists favicon, png, decoded. split_and!; try done.
  - by apply (success_stage_file fs writes (png_stage item) png).
  - by rewrite Hsz.
Qed.

(** C7: on a successful run, [favicon.ico] holds the ICO encoding of an
    image obtained by resizing the decoded logo itself (not one of the
    resized copies) to 32 by 32 with the Lanczos filter, and it decodes
    to a 32 by 32 image. *)
Theorem ico_resized_from_source (fs : gmap string node) (w' : world) :
  successful_run fs w' →
  ∃ data logo favicon_32 ico decoded,
    fs !! logo_path = Some (File data)
    ∧ pil_open data = Ok logo
    ∧ pil_resize logo (32, 32) LANCZOS = Ok favicon_32
    ∧ pil_encode favicon_32 ICO = Ok ico
    ∧ w_fs w' !! os_path.join public_dir "favicon.ico" = Some (File ico)
    ∧ pil_open ico = Ok decoded
    ∧ im_size decoded = (32, 32).
Proof.
  intros Hrun.
  destruct (successful_inv fs w' Hrun)
    as (data & logo & writes & Hlogo & Hopen & _ & Hw & Hst & _ & ->).
  assert (ico_stage ∈ writes.*1) as Hin.
  { rewrite Hst. unfold image_stages. apply elem_of_app. right. apply list_elem_of_here. }
  apply stage_in_writes in Hin as [ico Hin].
  pose proof (proj1 (Forall_forall _ _) Hw _ Hin) as (favicon_32 & Hres & Henc).
  simpl in Hres, Henc.
  pose proof (resize_size _ _ _ _ Hres) as Hsz.
  destruct (ico_decodes favicon_32 ico Hsz Henc) as (decoded & Hdec & Hdsz).
  exists data, logo, favicon_32, ico, decoded. split_and!; try done.
  by apply (success_stage_file fs writes ico_stage ico).
Qed.

(** C2: on a successful run, the text written to [site.webmanifest] is
    the rendering of the manifest by [json.dump] with an indent of 2, and
    read back as JSON it is the structure of the specification: the two
    names, the two icons in order (192x192, then 512x512, each with its
    src, sizes and type image/png), the two colours and the display mode. *)
Theorem manifest_matches_spec (fs : gmap string node) (w' : world) :
  successful_run fs w' →
  ∃ text,
    w_fs w' !! os_path.join public_dir "site.webmanifest" = Some (File text)
    ∧ text = json_dumps manifest 2
    ∧ json_reader.loads text = Some spec_manifest.
Proof.
  intros Hrun.
  destruct (successful_inv fs w' Hrun)
    as (data & logo & writes & _ & _ & _ & _ & _ & _ & ->).
  exists manifest_text. split_and!.
  - apply success_manifest_file.
  - reflexivity.
  - by vm_compute.
Qed.

(** C5: a successful run writes exactly the seven named files, in the
    output directory: these are the files its calls wrote, each is there
    at the end, the output directory is a directory, and every other
    path of the file system is as it was before the run. *)
Theorem seven_outputs_only (fs : gmap string node) (w' : world) :
  successful_run fs w' →
  call_path <$> written_calls (w_log w') = output_paths
  ∧ output_paths = (λ n, public_dir +:+ String sep n) <$> output_names
  ∧ NoDup output_paths
  ∧ length output_paths = 7%nat
  ∧ (∀ p, p ∈ output_paths → ∃ data, w_fs w' !! p = Some (File data))
  ∧ w_fs w' !! public_dir = Some Dir
  ∧ (fs !! public_dir = None ∨ fs !! public_dir = Some Dir)
  ∧ (∀ p, p ∉ output_paths → p ≠ public_dir → w_fs w' !! p = fs !! p).
Proof.
  intros Hrun.
  destruct (successful_inv fs w' Hrun)
    as (data & logo & writes & Hlogo & Hopen & Hdir & Hw & Hst & _ & ->).
  split_and!.
  - by rewrite success_written.
  - apply output_paths_inside.
  - rewrite output_paths_eq. apply file_paths_NoDup.
  - reflexivity.
  - intros p Hp. rewrite output_paths_eq, <- (files_of_paths writes Hst) in Hp.
    apply list_elem_of_fmap in Hp as ([q d] & -> & Hin).
    exists d. rewrite success_fs. apply fs_write_all_lookup; [|done].
    rewrite files_of_paths by done. apply file_paths_NoDup.
  - rewrite success_other; [by apply ensure_dir_public | done |].
    apply public_dir_not_file_path.
  - done.
  - intros p Hp Hne. rewrite success_other by done. by apply ensure_dir_other.
Qed.

(** ** The paths that do not complete *)

(** C3: when the logo is absent, the run prints the guidance (the
    download address, the expected file name and place) and returns:
    the file system is as before, no file system call was made, and the
    exit status is 0. *)
Theorem logo_missing_returns_cleanly (fs : gmap string node) :
  fs !! logo_path = None →
  ∃ w',
    run_script fs = (Ok tt, w')
    ∧ w_stdout w' = not_found_guidance
    ∧ w_fs w' = fs
    ∧ w_log w' = []
    ∧ exit_status (run_script fs).1 = 0.
Proof.
  intros Hlogo. rewrite run_script_eq, Hlogo. by eexists.
Qed.

(** C10: [os.makedirs] is called before the [try] statement.  When it
    raises, the exception leaves [generate_favicons] although it is an
    instance of [Exception]: nothing was printed, the file system is as
    before and the exit status is not 0.  It raises when the output path
    is a regular file. *)
Theorem makedirs_failure_propagates (fs : gmap string node) :
  is_Some (fs !! logo_path) →
  (∀ e w1,
      os_makedirs public_dir true (module_init fs) = (Raise e, w1) →
      run_script fs = (Raise e, w1)
      ∧ is_Exception e = true
      ∧ w_stdout w1 = []
      ∧ w_fs w1 = fs
      ∧ exit_status (run_script fs).1 ≠ 0)
  ∧ (∀ content,
        fs !! public_dir = Some (File content) →
        (run_script fs).1 = Raise (FileExistsError public_dir)).
Proof.
  intros [n Hlogo]. split.
  - intros e w1 Hmk. rewrite run_script_eq, Hlogo.
    unfold os_makedirs, module_init in Hmk. cbn [w_fs] in Hmk.
    destruct (fs !! public_dir) as [[content|]|]; [|done..].
    injection Hmk as <- <-. by split_and!.
  - intros content Hpub. by rewrite run_script_eq, Hlogo, Hpub.
Qed.

(** C4, as the code has it: an exception raised in the body of [try]
    that is an instance of [Exception] is caught; its message is printed
    after [Error generating favicons: ], then the hint to install
    Pillow; the file system is left as the body left it,
    [generate_favicons] returns and the exit status is 0. *)
Theorem exception_caught_and_reported (fs : gmap string node) (w2 w3 : world) (e : py_exc) :
  is_Some (fs !! logo_path) →
  (os_makedirs public_dir true ;; print "Generating favicons...") (module_init fs)
    = (Ok tt, w2) →
  try_body w2 = (Raise e, w3) →
  is_Exception e = true →
  ∃ w',
    run_script fs = (Ok tt, w')
    ∧ w_stdout w'
      = w_stdout w3
        ++ [ "Error generating favicons: " +:+ str e;
             String newline "Make sure Pillow is installed: pip install Pillow" ]
    ∧ w_fs w' = w_fs w3
    ∧ w_log w' = w_log w3
    ∧ exit_status (run_script fs).1 = 0.
Proof.
  intros [n Hlogo] Hmk Hbody Hexc.
  assert (run_script fs = (Ok tt, reported e w3)) as Hrun.
  { unfold run_script, generate_favicons, bind at 1, os_path_exists.
    cbn [w_fs module_init]. rewrite Hlogo.
    rewrite bool_decide_eq_true_2 by by eexists. cbn [negb].
    change (World fs sizes [] []) with (module_init fs).
    revert Hmk. unfold bind.
    destruct (os_makedirs public_dir true (module_init fs)) as [[[]|e1] w1]; [|done].
    unfold print. intros [= <-].
    unfold try_except_Exception. by rewrite Hbody, Hexc, handler_eq. }
  rewrite Hrun. exists (reported e w3). by split_and!.
Qed.

(** ** Every run, summarised *)

(** The three ways a run goes: the logo is missing; [os.makedirs]
    raises; the body runs, and the handler reports the exception it
    catches. *)
Lemma run_cases (fs : gmap string node) (r : py_result unit) (w' : world) :
  run_script fs = (r, w') →
  (fs !! logo_path = None ∧ r = Ok tt ∧ w' = World fs sizes not_found_guidance [])
  ∨ (r = Raise (FileExistsError public_dir)
     ∧ w' = World fs sizes [] [bare_event (Makedirs public_dir)])
  ∨ (∃ r3 w3,
        body_outcome (started fs) r3 w3
        ∧ match r3 with
          | Ok _ => r = Ok tt ∧ w' = w3
          | Raise e =>
              if is_Exception e then r = Ok tt ∧ w' = reported e w3
              else r = Raise e ∧ w' = w3
          end).
Proof.
  rewrite run_script_eq. intros Hrun.
  destruct (fs !! logo_path) as [n|] eqn:Hlogo.
  - assert ((r, w') = (Raise (FileExistsError public_dir),
                       World fs sizes [] [bare_event (Makedirs public_dir)])
            ∨ try_except_Exception try_body except_handler (started fs) = (r, w'))
      as [[= -> ->]|Htry].
    { revert Hrun. destruct (fs !! public_dir) as [[|]|]; intros Hrun;
        [by left | by right | by right]. }
    + right. by left.
    + right. right. unfold try_except_Exception in Htry.
      destruct (try_body (started fs)) as [r3 w3] eqn:Hbody.
      apply try_body_outcome in Hbody. exists r3, w3. split; [done |].
      destruct r3 as [[]|e].
      * by injection Htry as <- <-.
      * destruct (is_Exception e); [|by injection Htry as <- <-].
        rewrite handler_eq in Htry. by injection Htry as <- <-.
  - left. by injection Hrun as <- <-.
Qed.

Lemma stage_done_calls (writes : list (stage * string)) :
  (stage_done <$> writes).*1 = save_call <$> writes.*1.
Proof. rewrite <- !list_fmap_compose. by apply list_fmap_ext. Qed.

Lemma stage_done_events (writes : list (stage * string)) :
  file_event <$> (stage_done <$> writes) = stage_event <$> writes.
Proof. rewrite <- list_fmap_compose. by apply list_fmap_ext. Qed.

Lemma stage_done_files (writes : list (stage * string)) :
  call_file <$> (stage_done <$> writes) = stage_file <$> writes.
Proof. rewrite <- list_fmap_compose. by apply list_fmap_ext. Qed.

Lemma after_failed_save_other (im : Image) (fmt : save_format) (p q : string)
    (fs : gmap string node) :
  p ≠ q → after_failed_save im fmt p fs !! q = fs !! q.
Proof.
  intros Hne. unfold after_failed_save.
  destruct (fs !! p); [by rewrite lookup_insert_ne |].
  destruct pil_removes_created; [done | by rewrite lookup_insert_ne].
Qed.

Lemma after_failed_save_keeps (im : Image) (fmt : save_format) (p q : string)
    (fs : gmap string node) :
  is_Some (fs !! q) → is_Some (after_failed_save im fmt p fs !! q).
Proof.
  intros Hq. unfold after_failed_save.
  destruct (decide (p = q)) as [->|Hne].
  - destruct (fs !! q) eqn:Hlook; [|by destruct Hq].
    rewrite lookup_insert_eq. by eexists.
  - destruct (fs !! p); [by rewrite lookup_insert_ne |].
    destruct pil_removes_created; [done | by rewrite lookup_insert_ne].
Qed.

(** What the body did, whatever its outcome: the calls that wrote a
    file, then at most one call that raised, are a prefix of the calls
    of a complete run; the file system is the former one with the files
    written, except possibly at the target of a save that raised. *)
Lemma body_outcome_summary (w : world) (r : py_result unit) (w' : world) :
  body_outcome w r w' →
  w_sizes w = sizes →
  ∃ (done : list (fs_call * string)) (tail : list fs_call),
    (done.*1 ++ tail) `prefix_of` file_calls
    ∧ (tail = [] ∨ ∃ c, tail = [c])
    ∧ w_log w' = w_log w ++ (file_event <$> done) ++ (bare_event <$> tail)
    ∧ (∀ p, (∀ fmt, tail ≠ [Save p fmt]) →
            w_fs w' !! p = foldl fs_write (w_fs w) (call_file <$> done) !! p)
    ∧ w_sizes w' = sizes.
Proof.
  intros Hout Hsz. unfold file_calls. rewrite <- Hsz.
  inversion Hout as [e Hopen|data logo writes st rest e w0 Hl Hopen Hw Hst Hf
                    |data logo writes Hl Hopen Hw Hst Hm
                    |data logo writes Hl Hopen Hw Hst Hm]; subst.
  - exists [], []. split_and!; try done.
    + apply prefix_nil.
    + by left.
    + simpl. by rewrite app_nil_r.
  - rewrite Hst.
    assert (∀ tail, (tail = [] ∨ tail = [save_call st]) →
              ((stage_done <$> writes).*1 ++ tail)
                `prefix_of` (map save_call (writes.*1 ++ st :: rest)
                             ++ [WriteText manifest_path])) as Hpre.
    { intros tail Htail. rewrite stage_done_calls, map_app, <- app_assoc.
      apply prefix_app. destruct Htail as [-> | ->]; [apply prefix_nil |].
      simpl. apply prefix_cons, prefix_nil. }
    inversion Hf as [e' Hres|im Hres Hdir|im e' Hres Hdir Henc]; subst.
    + exists (stage_done <$> writes), []. split_and!.
      * apply Hpre. by left.
      * by left.
      * rewrite stage_done_events, wrote_all_log. simpl. by rewrite app_nil_r.
      * intros p _. by rewrite stage_done_files, wrote_all_fs.
      * by rewrite wrote_all_sizes.
    + exists (stage_done <$> writes), [save_call st]. split_and!.
      * apply Hpre. by right.
      * right. by eexists.
      * rewrite stage_done_events. simpl. rewrite wrote_all_log. by rewrite <- app_assoc.
      * intros p _. simpl. by rewrite stage_done_files, wrote_all_fs.
      * simpl. by rewrite wrote_all_sizes.
    + exists (stage_done <$> writes), [save_call st]. split_and!.
      * apply Hpre. by right.
      * right. by eexists.
      * rewrite stage_done_events. simpl. rewrite wrote_all_log. by rewrite <- app_assoc.
      * intros p Hp. simpl. rewrite after_failed_save_other.
        -- by rewrite stage_done_files, wrote_all_fs.
        -- intros Heq. apply (Hp (st_fmt st)). unfold save_call. by rewrite Heq.
      * simpl. by rewrite wrote_all_sizes.
  - rewrite Hst.
    exists (stage_done <$> writes), [WriteText manifest_path]. split_and!.
    + by rewrite stage_done_calls.
    + right. by eexists.
    + rewrite stage_done_events. simpl. rewrite wrote_all_log. by rewrite <- app_assoc.
    + intros p _. simpl. by rewrite stage_done_files, wrote_all_fs.
    + simpl. by rewrite wrote_all_sizes.
  - rewrite Hst.
    exists ((stage_done <$> writes) ++ [(WriteText manifest_path, manifest_text)]), [].
    split_and!.
    + by rewrite app_nil_r, fmap_app, stage_done_calls.
    + by left.
    + rewrite fmap_app, stage_done_events. simpl. rewrite wrote_all_log.
      by rewrite app_nil_r, <- app_assoc.
    + intros p _. rewrite fmap_app, stage_done_files, foldl_app. simpl.
      by rewrite wrote_all_fs.
    + simpl. by rewrite wrote_all_sizes.
Qed.

(** The body removes nothing. *)
Lemma body_outcome_keeps (w : world) (r : py_result unit) (w' : world) (p : string) :
  body_outcome w r w' → is_Some (w_fs w !! p) → is_Some (w_fs w' !! p).
Proof.
  intros Hout Hp.
  assert (∀ writes, is_Some (w_fs (foldl wrote w writes) !! p)) as Hwrites.
  { intros writes. rewrite wrote_all_fs. by apply fs_write_all_keeps. }
  inversion Hout as [e Hopen|data logo writes st rest e w0 Hl Hopen Hw Hst Hf
                    |data logo writes Hl Hopen Hw Hst Hm
                    |data logo writes Hl Hopen Hw Hst Hm]; subst.
  - done.
  - inversion Hf as [e' Hres|im Hres Hdir|im e' Hres Hdir Henc]; subst.
    + apply Hwrites.
    + apply Hwrites.
    + simpl. apply after_failed_save_keeps, Hwrites.
  - apply Hwrites.
  - simpl. destruct (decide (manifest_path = p)) as [->|Hne].
    + rewrite lookup_insert_eq. by eexists.
    + rewrite lookup_insert_ne by done. apply Hwrites.
Qed.

Lemma ensure_dir_keeps (fs : gmap string node) (p : string) :
  is_Some (fs !! p) → is_Some (ensure_dir fs !! p).
Proof.
  intros Hp. unfold ensure_dir. destruct (fs !! public_dir) eqn:Hpub; [done |].
  destruct (decide (public_dir = p)) as [<-|Hne].
  - rewrite lookup_insert_eq. by eexists.
  - by rewrite lookup_insert_ne.
Qed.

(** A run removes nothing. *)
Lemma run_keeps (fs : gmap string node) (r : py_result unit) (w' : world) (p : string) :
  run_script fs = (r, w') → is_Some (fs !! p) → is_Some (w_fs w' !! p).
Proof.
  intros Hrun Hp.
  destruct (run_cases fs r w' Hrun)
    as [(_ & _ & ->)|[(_ & ->)|(r3 & w3 & Hbody & Hr)]]; [done..|].
  assert (w_fs w' = w_fs w3) as ->.
  { destruct r3 as [[]|e]; [by destruct Hr as [_ ->] |].
    destruct (is_Exception e); by destruct Hr as [_ ->]. }
  eapply body_outcome_keeps; [done |]. by apply ensure_dir_keeps.
Qed.

Lemma run_summary (fs : gmap string node) (r : py_result unit) (w' : world) :
  run_script fs = (r, w') →
  w_sizes w' = sizes
  ∧ ((w_log w' = [] ∧ w_fs w' = fs)
     ∨ (w_log w' = [bare_event (Makedirs public_dir)] ∧ w_fs w' = fs)
     ∨ (∃ (done : list (fs_call * string)) (tail : list fs_call),
           (done.*1 ++ tail) `prefix_of` file_calls
           ∧ (tail = [] ∨ ∃ c, tail = [c])
           ∧ w_log w'
             = bare_event (Makedirs public_dir)
               :: (file_event <$> done) ++ (bare_event <$> tail)
           ∧ (∀ p, (∀ fmt, tail ≠ [Save p fmt]) →
                   w_fs w' !! p
                   = foldl fs_write (ensure_dir fs) (call_file <$> done) !! p))).
Proof.
  intros Hrun.
  destruct (run_cases fs r w' Hrun)
    as [(_ & _ & ->)|[(_ & ->)|(r3 & w3 & Hbody & Hr)]].
  - split; [done |]. by left.
  - split; [done |]. right. by left.
  - destruct (body_outcome_summary _ _ _ Hbody eq_refl)
      as (done & tail & Hpre & Htail & Hlog & Hfs & Hsz).
    assert (w_sizes w' = w_sizes w3 ∧ w_log w' = w_log w3 ∧ w_fs w' = w_fs w3)
      as (-> & -> & ->).
    { destruct r3 as [[]|e]; [by destruct Hr as [_ ->] |].
      destruct (is_Exception e); by destruct Hr as [_ ->]. }
    split; [done |]. right. right. by exists done, tail.
Qed.



Lemma file_event_calls (done : list (fs_call * string)) :
  ev_call <$> (file_event <$> done) = done.*1.
Proof. rewrite <- list_fmap_compose. by apply list_fmap_ext. Qed.

Lemma bare_event_calls (tail : list fs_call) : ev_call <$> (bare_event <$> tail) = tail.
Proof. rewrite <- list_fmap_compose. rewrite <- (list_fmap_id tail) at 2. by apply list_fmap_ext. Qed.

Lemma call_file_paths (done : list (fs_call * string)) :
  (call_file <$> done).*1 = call_path <$> done.*1.
Proof. rewrite <- !list_fmap_compose. by apply list_fmap_ext. Qed.

(** ** Order of the effects *)


(** ** Nothing is rolled back *)

(** C9: whatever the outcome of a run, handler included, every file a
    call of the run wrote completely is on disk at the end with the
    content written, and every path that existed before the run still
    exists at the end: nothing is removed, nothing is rolled back. *)
Theorem written_files_remain (fs : gmap string node) (r : py_result unit) (w' : world) :
  run_script fs = (r, w') →
  (∀ c data,
      FsEvent c (Some data) ∈ w_log w' →
      w_fs w' !! call_path c = Some (File data))
  ∧ (∀ p, is_Some (fs !! p) → is_Some (w_fs w' !! p)).
Proof.
  intros Hrun. split; [|intros p; by apply (run_keeps fs r w')].
  destruct (run_summary fs r w' Hrun)
    as [_ [[Hlog ->]|[[Hlog ->]|(done & tail & Hpre & Htail & Hlog & Hfs)]]].
  - intros c data Hin. rewrite Hlog in Hin. by apply elem_of_nil in Hin.
  - intros c data Hin. rewrite Hlog in Hin.
    by apply list_elem_of_singleton in Hin.
  - assert (NoDup (call_path <$> (done.*1 ++ tail))) as Hnd.
    { destruct Hpre as [k Hk]. pose proof file_paths_NoDup as H.
      rewrite Hk, fmap_app in H. by apply NoDup_app in H as [? _]. }
    rewrite fmap_app in Hnd. apply NoDup_app in Hnd as (Hnd1 & Hdisj & _).
    intros c data Hin. rewrite Hlog in Hin.
    apply elem_of_cons in Hin as [Heq|Hin]; [done |].
    apply elem_of_app in Hin as [Hin|Hin].
    + apply list_elem_of_fmap in Hin as ([c' d'] & [= -> ->] & Hin).
      rewrite Hfs.
      * apply fs_write_all_lookup.
        -- by rewrite call_file_paths.
        -- apply list_elem_of_fmap. by exists (c', d').
      * intros fmt ->. apply (Hdisj (call_path c')).
        -- apply list_elem_of_fmap. exists c'. split; [done |].
           apply list_elem_of_fmap. by exists (c', d').
        -- simpl. apply list_elem_of_here.
    + by apply list_elem_of_fmap in Hin as (c' & [= _ ?] & _).
Qed.

(** ** Running twice *)

Lemma fs_write_all_id (fs : gmap string node) (files : list (string * string)) :
  (∀ p d, (p, d) ∈ files → fs !! p = Some (File d)) →
  foldl fs_write fs files = fs.
Proof.
  induction files as [|[p d] files IH]; intros Hall; [done |].
  simpl. unfold fs_write at 2. simpl.
  rewrite insert_id by (apply Hall, list_elem_of_here).
  apply IH. intros q d' Hin. apply Hall. by apply list_elem_of_further.
Qed.

(** Pillow's operations are functions: the same logo gives the same data
    at every stage. *)
Lemma stage_written_functional (logo : Image) (writes writes' : list (stage * string)) :
  Forall (stage_written logo) writes →
  Forall (stage_written logo) writes' →
  writes.*1 = writes'.*1 →
  writes = writes'.
Proof.
  revert writes'. induction writes as [|[st d] writes IH]; intros [|[st' d'] writes'] Hw Hw' Heq;
    try done.
  simpl in Heq. injection Heq as <- Heq.
  apply Forall_cons in Hw as [(im & Hres & Henc) Hw].
  apply Forall_cons in Hw' as [(im' & Hres' & Henc') Hw'].
  simpl in *. rewrite Hres in Hres'. injection Hres' as <-.
  rewrite Henc in Henc'. injection Henc' as <-.
  f_equal. by apply IH.
Qed.

Lemma success_files (fs : gmap string node) (writes : list (stage * string)) (p d : string) :
  writes.*1 = image_stages sizes →
  (p, d) ∈ files_of writes →
  w_fs (finished (foldl wrote (started fs) writes)) !! p = Some (File d).
Proof.
  intros Hst Hin. rewrite success_fs. apply fs_write_all_lookup; [|done].
  rewrite files_of_paths by done. apply file_paths_NoDup.
Qed.

Lemma ensure_dir_id (fs : gmap string node) :
  fs !! public_dir = Some Dir → ensure_dir fs = fs.
Proof. intros H. unfold ensure_dir. by rewrite H. Qed.

(** C8: after a successful run, a second run on the resulting file
    system is successful too, makes the same calls with the same data
    and leaves the file system exactly as the first run left it; two
    successful runs on file systems that hold the same logo write the
    same data to every output file; and [os.makedirs] changes nothing
    when the output directory exists, as it does after a first run. *)
Theorem rerun_is_idempotent (fs : gmap string node) (w1 : world) :
  successful_run fs w1 →
  (∃ w2,
      successful_run (w_fs w1) w2
      ∧ w_fs w2 = w_fs w1
      ∧ w_log w2 = w_log w1
      ∧ w_stdout w2 = w_stdout w1)
  ∧ (∀ fs' w',
        fs' !! logo_path = fs !! logo_path →
        successful_run fs' w' →
        w_log w' = w_log w1
        ∧ ∀ p, p ∈ output_paths → w_fs w' !! p = w_fs w1 !! p)
  ∧ (∀ w,
        w_fs w !! public_dir = Some Dir →
        ∃ w', os_makedirs public_dir true w = (Ok tt, w') ∧ w_fs w' = w_fs w)
  ∧ w_fs w1 !! public_dir = Some Dir.
Proof.
  intros Hrun.
  destruct (successful_inv fs w1 Hrun)
    as (data & logo & writes & Hlogo & Hopen & Hdir & Hw & Hst & Hm & ->).
  set (fs1 := w_fs (finished (foldl wrote (started fs) writes))).
  assert (fs1 !! public_dir = Some Dir) as Hpub1.
  { unfold fs1. rewrite success_other; [by apply ensure_dir_public | done |].
    apply public_dir_not_file_path. }
  assert (fs1 !! logo_path = Some (File data)) as Hlogo1.
  { unfold fs1. rewrite success_other; [|done|].
    - by rewrite ensure_dir_other by apply logo_path_not_public_dir.
    - intros Hin. apply logo_path_not_target. unfold all_calls.
      rewrite fmap_cons. by apply list_elem_of_further. }
  assert (∀ p d, (p, d) ∈ files_of writes → fs1 !! p = Some (File d)) as Hfiles.
  { intros p d Hin. by apply success_files. }
  split_and!.
  - exists (finished (foldl wrote (started fs1) writes)). split_and!.
    + apply (successful_intro fs1 data logo writes); try done.
      * by right.
      * apply Forall_forall. intros [st d] Hin. simpl.
        rewrite ensure_dir_id by done.
        rewrite (Hfiles (st_path st) d); [done |].
        unfold files_of. apply elem_of_app. left.
        apply list_elem_of_fmap. by exists (st, d).
      * rewrite wrote_all_fs. simpl. rewrite ensure_dir_id by done.
        rewrite fs_write_all_id.
        -- rewrite (Hfiles manifest_path manifest_text); [done |].
           unfold files_of. apply elem_of_app. right. apply list_elem_of_here.
        -- intros p d Hin. apply Hfiles. unfold files_of. apply elem_of_app. by left.
    + rewrite success_fs, ensure_dir_id by done. by apply fs_write_all_id.
    + by rewrite !success_log.
    + simpl. by rewrite !wrote_all_stdout.
  - intros fs' w' Hsame Hrun'.
    destruct (successful_inv fs' w' Hrun')
      as (data' & logo' & writes' & Hlogo' & Hopen' & _ & Hw' & Hst' & _ & ->).
    assert (data' = data) as -> by congruence.
    assert (logo' = logo) as -> by congruence.
    assert (writes' = writes) as ->.
    { apply (stage_written_functional logo); [done..|congruence]. }
    split; [by rewrite !success_log |].
    intros p Hp. rewrite output_paths_eq, <- (files_of_paths writes Hst) in Hp.
    apply list_elem_of_fmap in Hp as ([q d] & -> & Hin). cbn [fst].
    rewrite (success_files fs' writes q d) by done. symmetry. by apply Hfiles.
  - intros w Hpub. unfold os_makedirs. rewrite Hpub. by eexists.
  - done.
Qed.

(** ** What a run prints *)

Lemma stage_paths_NoDup :
  NoDup (st_path <$> image_stages sizes)
  ∧ manifest_path ∉ st_path <$> image_stages sizes.
Proof.
  pose proof file_paths_NoDup as Hnd. unfold file_calls in Hnd.
  rewrite fmap_app in Hnd. apply NoDup_app in Hnd as (Hnd & Hdisj & _).
  assert (call_path <$> map save_call (image_stages sizes)
          = st_path <$> image_stages sizes) as Heq.
  { rewrite <- list_fmap_compose. by apply list_fmap_ext. }
  rewrite Heq in Hnd, Hdisj. split; [done |].
  intros Hin. apply (Hdisj _ Hin). simpl. apply list_elem_of_here.
Qed.

Lemma stage_file_paths (writes : list (stage * string)) :
  (stage_file <$> writes).*1 = st_path <$> writes.*1.
Proof. rewrite <- !list_fmap_compose. by apply list_fmap_ext. Qed.

Lemma stage_lines (writes : list (stage * string)) :
  (λ sd : stage * string, st_line sd.1) <$> writes = st_line <$> writes.*1.
Proof. rewrite <- list_fmap_compose. by apply list_fmap_ext. Qed.

(** The files of completed stages with distinct targets are on disk. *)
Lemma wrote_all_lookup (w : world) (writes : list (stage * string)) (st : stage) (d : string) :
  NoDup (st_path <$> writes.*1) →
  (st, d) ∈ writes →
  w_fs (foldl wrote w writes) !! st_path st = Some (File d).
Proof.
  intros Hnd Hin. rewrite wrote_all_fs. apply fs_write_all_lookup.
  - by rewrite stage_file_paths.
  - apply list_elem_of_fmap. by exists (st, d).
Qed.

(** What the body printed and left on disk, whatever its outcome: one
    line for each completed stage, then the closing lines if everything
    was written; the file of each completed stage is on disk. *)
Lemma body_outcome_trace (w : world) (r : py_result unit) (w' : world) :
  body_outcome w r w' →
  w_sizes w = sizes →
  ∃ (writes : list (stage * string)) (closing : list string),
    writes.*1 `prefix_of` image_stages sizes
    ∧ w_stdout w' = w_stdout w ++ (st_line <$> writes.*1) ++ closing
    ∧ (closing = [] ∧ (∃ e, r = Raise e)
       ∨ closing = finish_lines ∧ r = Ok tt
         ∧ w_fs w' !! manifest_path = Some (File manifest_text))
    ∧ (∀ st d, (st, d) ∈ writes → w_fs w' !! st_path st = Some (File d)).
Proof.
  intros Hout Hsz. destruct stage_paths_NoDup as [Hnd Hman].
  rewrite <- Hsz in Hnd, Hman. rewrite <- Hsz.
  inversion Hout as [e Hopen|data logo writes st rest e w0 Hl Hopen Hw Hst Hf
                    |data logo writes Hl Hopen Hw Hst Hm
                    |data logo writes Hl Hopen Hw Hst Hm]; subst.
  - exists [], []. split_and!.
    + apply prefix_nil.
    + simpl. by rewrite app_nil_r.
    + left. split; [done | by eexists].
    + intros st d Hin. by apply elem_of_nil in Hin.
  - rewrite Hst in Hnd. rewrite fmap_app in Hnd.
    apply NoDup_app in Hnd as (Hnd1 & Hdisj & _).
    exists writes, []. split_and!.
    + rewrite Hst. by apply prefix_app_r.
    + rewrite app_nil_r.
      assert (w_stdout w' = w_stdout (foldl wrote w writes)) as ->
        by (inversion Hf; by subst).
      by rewrite wrote_all_stdout, stage_lines.
    + left. split; [done | by eexists].
    + intros st' d Hin.
      pose proof (wrote_all_lookup w writes st' d Hnd1 Hin) as Hlook.
      inversion Hf as [e' Hres|im Hres Hdir|im e' Hres Hdir Henc]; subst; try done.
      simpl. rewrite after_failed_save_other; [done |].
      intros Heq. apply (Hdisj (st_path st')).
      * apply list_elem_of_fmap. exists st'. split; [done |].
        apply list_elem_of_fmap. by exists (st', d).
      * rewrite <- Heq. simpl. apply list_elem_of_here.
  - rewrite Hst in Hnd. exists writes, []. split_and!.
    + by rewrite Hst.
    + rewrite app_nil_r. simpl. by rewrite wrote_all_stdout, stage_lines.
    + left. split; [done | by eexists].
    + intros st' d Hin. simpl. by apply wrote_all_lookup.
  - rewrite Hst in Hnd, Hman. exists writes, finish_lines. split_and!.
    + by rewrite Hst.
    + simpl. rewrite wrote_all_stdout, stage_lines. by rewrite <- !app_assoc.
    + right. split_and!; [done..|]. simpl. by rewrite lookup_insert_eq.
    + intros st' d Hin. simpl. rewrite lookup_insert_ne.
      * by apply wrote_all_lookup.
      * intros Heq. apply Hman. rewrite Heq.
        apply list_elem_of_fmap. exists st'. split; [done |].
        apply list_elem_of_fmap. by exists (st', d).
Qed.

(** The same for a whole run that reached the body: the handler adds its
    report. *)
Lemma run_trace (fs : gmap string node) (r : py_result unit) (w' : world) :
  run_script fs = (r, w') →
  w_stdout w' = not_found_guidance
  ∨ w_stdout w' = []
  ∨ ∃ (writes : list (stage * string)) (closing : list string),
      writes.*1 `prefix_of` image_stages sizes
      ∧ w_stdout w' = "Generating favicons..." :: (st_line <$> writes.*1) ++ closing
      ∧ (closing = []
         ∨ (∃ e, closing = error_report e)
         ∨ closing = finish_lines
           ∧ w_fs w' !! manifest_path = Some (File manifest_text))
      ∧ (∀ st d, (st, d) ∈ writes → w_fs w' !! st_path st = Some (File d)).
Proof.
  intros Hrun.
  destruct (run_cases fs r w' Hrun)
    as [(_ & _ & ->)|[(_ & ->)|(r3 & w3 & Hbody & Hr)]]; [by left | by right; left |].
  right. right.
  destruct (body_outcome_trace _ _ _ Hbody eq_refl)
    as (writes & closing & Hpre & Hout & Hclosing & Hfiles).
  destruct r3 as [[]|e].
  - destruct Hr as [_ ->]. exists writes, closing. split_and!; try done.
    destruct Hclosing as [[_ [e ?]]|(-> & _ & Hm)]; [done |]. right. right. by split.
  - destruct Hclosing as [[-> _]|(_ & ? & _)]; [|done].
    destruct (is_Exception e).
    + destruct Hr as [_ ->]. exists writes, (error_report e). split_and!; try done.
      * simpl. rewrite Hout. simpl. by rewrite !app_nil_r.
      * right. left. by eexists.
    + destruct Hr as [_ ->]. exists writes, []. split_and!; try done. by left.
Qed.

(** X1: a successful run prints, in this order, the announcement, one
    line for each of the five PNG files in the order of [sizes], the
    line of the icon, the line of the manifest and the two closing
    lines, and nothing else. *)
Theorem success_transcript (fs : gmap string node) (w' : world) :
  successful_run fs w' →
  w_stdout w'
  = [ "Generating favicons...";
      "Generated favicon-16x16.png";
      "Generated favicon-32x32.png";
      "Generated apple-touch-icon.png";
      "Generated android-chrome-192x192.png";
      "Generated android-chrome-512x512.png";
      "Generated favicon.ico";
      "Generated site.webmanifest";
      String newline "All favicons generated successfully!";
      "Files are in the public/ directory" ].
Proof.
  intros Hrun.
  destruct (successful_inv fs w' Hrun)
    as (data & logo & writes & _ & _ & _ & _ & Hst & _ & ->).
  simpl. rewrite wrote_all_stdout, stage_lines, Hst. reflexivity.
Qed.

Lemma elem_of_prefix {A} (l1 l2 : list A) (x : A) : l1 `prefix_of` l2 → x ∈ l1 → x ∈ l2.
Proof. intros [k ->] Hin. apply elem_of_app. by left. Qed.

(** The line of a stage names the file the stage writes. *)
Lemma stage_line_names_file (st : stage) (n : string) :
  st ∈ image_stages sizes →
  st_line st = "Generated " +:+ n →
  st_path st = os_path.join public_dir n.
Proof.
  unfold image_stages. intros Hin Hline. apply elem_of_app in Hin as [Hin|Hin].
  - apply list_elem_of_fmap in Hin as (item & -> & _). simpl in *.
    apply String.app_inj in Hline. by rewrite Hline.
  - apply list_elem_of_singleton in Hin as ->. simpl in *.
    change "Generated favicon.ico" with ("Generated " +:+ "favicon.ico") in Hline.
    apply String.app_inj in Hline. by rewrite <- Hline.
Qed.

(** X2: the progress lines tell the truth.  In every run, failed or not,
    a line [Generated <name>] on the output means that the file
    [<name>] of the output directory is on disk at the end of the run. *)
Theorem progress_lines_truthful (fs : gmap string node) (r : py_result unit) (w' : world)
    (n : string) :
  run_script fs = (r, w') →
  ("Generated " +:+ n) ∈ w_stdout w' →
  ∃ data, w_fs w' !! os_path.join public_dir n = Some (File data).
Proof.
  intros Hrun Hin.
  destruct (run_trace fs r w' Hrun)
    as [Hout|[Hout|(writes & closing & Hpre & Hout & Hclosing & Hfiles)]];
    rewrite Hout in Hin.
  - unfold not_found_guidance in Hin.
    repeat (apply elem_of_cons in Hin as [Heq|Hin]; [vm_compute in Heq; discriminate Heq |]).
    by apply elem_of_nil in Hin.
  - by apply elem_of_nil in Hin.
  - apply elem_of_cons in Hin as [Heq|Hin]; [vm_compute in Heq; discriminate Heq |].
    apply elem_of_app in Hin as [Hin|Hin].
    + apply list_elem_of_fmap in Hin as (st & Hline & Hst).
      pose proof (elem_of_prefix _ _ _ Hpre Hst) as Hstage.
      apply stage_in_writes in Hst as [d Hd].
      exists d. rewrite <- (stage_line_names_file st n) by done. by apply Hfiles.
    + destruct Hclosing as [->|[[e ->]|[-> Hm]]].
      * by apply elem_of_nil in Hin.
      * unfold error_report in Hin.
        repeat (apply elem_of_cons in Hin as [Heq|Hin];
                [vm_compute in Heq; discriminate Heq |]).
        by apply elem_of_nil in Hin.
      * unfold finish_lines in Hin.
        apply elem_of_cons in Hin as [Heq|Hin].
        -- change "Generated site.webmanifest"
             with ("Generated " +:+ "site.webmanifest") in Heq.
           apply String.app_inj in Heq as ->. by exists manifest_text.
        -- repeat (apply elem_of_cons in Hin as [Heq|Hin];
                   [vm_compute in Heq; discriminate Heq |]).
           by apply elem_of_nil in Hin.
Qed.

(** ** What a run touches *)

Lemma log_calls_prefix (fs : gmap string node) (r : py_result unit) (w' : world) :
  run_script fs = (r, w') → (ev_call <$> w_log w') `prefix_of` all_calls.
Proof.
  intros Hrun.
  destruct (run_summary fs r w' Hrun)
    as [_ [[-> _]|[[-> _]|(done & tail & Hpre & _ & -> & _)]]].
  - apply prefix_nil.
  - unfold all_calls. simpl. apply prefix_cons, prefix_nil.
  - rewrite fmap_cons, fmap_app, file_event_calls, bare_event_calls.
    unfold all_calls. simpl. by apply prefix_cons.
Qed.

(** Every path that is not the target of a logged call is as before. *)
Lemma run_untouched (fs : gmap string node) (r : py_result unit) (w' : world) (p : string) :
  run_script fs = (r, w') →
  p ∉ call_path <$> (ev_call <$> w_log w') →
  w_fs w' !! p = fs !! p.
Proof.
  intros Hrun Hp.
  destruct (run_summary fs r w' Hrun)
    as [_ [[_ ->]|[[_ ->]|(wr & tail & _ & _ & Hlog & Hfs)]]]; [done..|].
  rewrite Hlog, fmap_cons, fmap_app, file_event_calls, bare_event_calls in Hp.
  rewrite fmap_cons, fmap_app in Hp. simpl in Hp.
  apply not_elem_of_cons in Hp as [Hpub Hp].
  apply not_elem_of_app in Hp as [Hdone Htail].
  rewrite Hfs.
  - rewrite fs_write_all_other by (by rewrite call_file_paths).
    by apply ensure_dir_other.
  - intros fmt ->. apply Htail. simpl. apply list_elem_of_here.
Qed.

(** The logo is never a target. *)
Lemma run_logo_untouched (fs : gmap string node) (r : py_result unit) (w' : world) :
  run_script fs = (r, w') → w_fs w' !! logo_path = fs !! logo_path.
Proof.
  intros Hrun. apply (run_untouched fs r w'); [done |]. intros Hin.
  apply logo_path_not_target.
  eapply elem_of_prefix; [|exact Hin].
  destruct (log_calls_prefix fs r w' Hrun) as [k ->].
  rewrite fmap_app. by apply prefix_app_r.
Qed.

(** X3: a run changes only the targets of the calls it made.  Every path
    that is not the target of a logged call holds at the end what it held
    before: files elsewhere, the outputs of an earlier run that this run
    did not reach, and in every case the logo itself. *)
Theorem untouched_paths (fs : gmap string node) (r : py_result unit) (w' : world) :
  run_script fs = (r, w') →
  (∀ p, p ∉ call_path <$> (ev_call <$> w_log w') → w_fs w' !! p = fs !! p)
  ∧ w_fs w' !! logo_path = fs !! logo_path.
Proof.
  intros Hrun. split.
  - intros p. by apply (run_untouched fs r w').
  - by apply (run_logo_untouched fs r w').
Qed.

(** X4: the files a run wrote are the first ones of the fixed sequence,
    without a gap: the calls that wrote a file are a prefix of the five
    PNG saves, the icon save and the manifest write.  A run that wrote
    the manifest wrote all six images. *)
Theorem outputs_written_in_sequence (fs : gmap string node) (r : py_result unit)
    (w' : world) :
  run_script fs = (r, w') →
  written_calls (w_log w') `prefix_of` file_calls
  ∧ (WriteText manifest_path ∈ written_calls (w_log w') →
     written_calls (w_log w') = file_calls).
Proof.
  intros Hrun.
  assert (∃ done tail, written_calls (w_log w') = done
                       ∧ (done ++ tail) `prefix_of` file_calls) as (done & tail & -> & Hpre).
  { destruct (run_summary fs r w' Hrun)
      as [_ [[-> _]|[[-> _]|(done & tail & Hpre & _ & -> & _)]]].
    - exists [], []. split; [done | apply prefix_nil].
    - exists [], []. split; [done | apply prefix_nil].
    - exists done.*1, tail. split; [|done].
      change (bare_event (Makedirs public_dir) :: ?l)
        with ([bare_event (Makedirs public_dir)] ++ l).
      rewrite !written_calls_app.
      assert (written_calls (file_event <$> done) = done.*1) as ->.
      { clear. induction done as [|cd done IH]; [done |].
        cbn. unfold written_calls in IH. by rewrite IH. }
      assert (written_calls (bare_event <$> tail) = []) as ->.
      { clear. induction tail as [|c tail IH]; [done |]. cbn. exact IH. }
      simpl. by rewrite app_nil_r. }
  assert (done `prefix_of` file_calls) as Hdone.
  { destruct Hpre as [k Hk]. exists (tail ++ k). by rewrite Hk, <- app_assoc. }
  split; [exact Hdone |].
  intros Hin. destruct Hdone as [k Hk].
  destruct k as [|c k]; [by rewrite Hk, app_nil_r |].
  exfalso. pose proof file_paths_NoDup as Hnd.
  apply NoDup_fmap_1 in Hnd. rewrite Hk in Hnd.
  assert (last file_calls = Some (WriteText manifest_path)) as Hlast.
  { unfold file_calls. apply last_snoc. }
  rewrite Hk in Hlast.
  apply NoDup_app in Hnd as (_ & Hdisj & _). apply (Hdisj _ Hin).
  rewrite last_app_cons in Hlast. by apply last_Some_elem_of.
Qed.


(** ** When the logo cannot be read *)


(** ** When a run succeeds *)

Lemma successful_body (fs : gmap string node) (w' : world) :
  successful_run fs w' →
  (fs !! public_dir = None ∨ fs !! public_dir = Some Dir)
  ∧ try_body (started fs) = (Ok tt, w').
Proof.
  intros [Hrun Hlast]. rewrite run_script_eq in Hrun.
  destruct (fs !! logo_path) as [n|] eqn:Hlogo.
  - assert ((fs !! public_dir = None ∨ fs !! public_dir = Some Dir)
            ∧ try_except_Exception try_body except_handler (started fs) = (Ok tt, w'))
      as [Hdir Htry].
    { revert Hrun. destruct (fs !! public_dir) as [[|]|]; intros Hrun.
      - done.
      - split; [by right | done].
      - split; [by left | done]. }
    split; [done |]. unfold try_except_Exception in Htry.
    destruct (try_body (started fs)) as [[[]|e] w3]; [done |].
    destruct (is_Exception e); [|done].
    rewrite handler_eq in Htry. injection Htry as <-.
    simpl in Hlast. by rewrite last_error_report in Hlast.
  - injection Hrun as <-. simpl in Hlast. discriminate.
Qed.

(** Stages that all complete found none of their targets a directory. *)
Lemma run_stages_targets (logo : Image) (stages : list stage) (w w' : world) :
  for_each stages (run_stage logo) w = (Ok tt, w') →
  NoDup (st_path <$> stages) →
  Forall (λ st, w_fs w !! st_path st ≠ Some Dir) stages.
Proof.
  revert w. induction stages as [|st stages IH]; intros w Hrun Hnd; [constructor |].
  rewrite fmap_cons in Hnd. apply NoDup_cons in Hnd as [Hst Hnd].
  rewrite for_each_cons in Hrun.
  destruct (run_stage_cases logo st w) as [(data & _ & Hdir & Heq)|(e & w0 & _ & Heq)];
    rewrite Heq in Hrun; [|done].
  constructor; [done |].
  specialize (IH _ Hrun Hnd). rewrite Forall_forall in IH. apply Forall_forall.
  intros st' Hin. specialize (IH st' Hin). simpl in IH.
  rewrite lookup_insert_ne in IH; [done |].
  intros Heq'. apply Hst. rewrite Heq'. apply list_elem_of_fmap. by exists st'.
Qed.

(** The writes of a list of stages that can all be made. *)
Lemma stages_writes (logo : Image) (stages : list stage) :
  (∀ st, st ∈ stages → ∃ d, stage_written logo (st, d)) →
  ∃ writes, writes.*1 = stages ∧ Forall (stage_written logo) writes.
Proof.
  induction stages as [|st stages IH]; intros Hall.
  - exists []. split; [done | constructor].
  - destruct (Hall st) as [d Hd]; [apply list_elem_of_here |].
    destruct IH as (writes & Hw & Hf).
    { intros st' Hin. apply Hall. by apply list_elem_of_further. }
    exists ((st, d) :: writes). split; [by rewrite fmap_cons, Hw | by constructor].
Qed.

Lemma stage_path_output (st : stage) :
  st ∈ image_stages sizes → st_path st ∈ output_paths ∧ st_path st ≠ public_dir.
Proof.
  intros Hin.
  assert (st_path st ∈ call_path <$> file_calls) as Hp.
  { unfold file_calls. rewrite fmap_app. apply elem_of_app. left.
    apply list_elem_of_fmap. exists (save_call st). split; [done |].
    apply list_elem_of_fmap. by exists st. }
  split; [by rewrite output_paths_eq |].
  intros Heq. apply public_dir_not_file_path. by rewrite <- Heq.
Qed.

Lemma manifest_path_not_public_dir : manifest_path ≠ public_dir.
Proof.
  intros Heq. apply public_dir_not_file_path. rewrite <- Heq.
  apply manifest_path_file_call.
Qed.

(** What a successful run needed. *)
Lemma success_necessary (fs : gmap string node) :
  (∃ w', successful_run fs w') →
  ∃ data logo,
      fs !! logo_path = Some (File data)
      ∧ pil_open data = Ok logo
      ∧ (fs !! public_dir = None ∨ fs !! public_dir = Some Dir)
      ∧ (∀ item, item ∈ sizes →
           ∃ im png,
             pil_resize logo (size item, size item) LANCZOS = Ok im
             ∧ pil_encode im PNG = Ok png)
      ∧ (∃ im ico,
            pil_resize logo (32, 32) LANCZOS = Ok im ∧ pil_encode im ICO = Ok ico)
      ∧ (∀ p, p ∈ output_paths → fs !! p ≠ Some Dir).
Proof.
  destruct stage_paths_NoDup as [Hnd Hman].
  intros [w' Hok].
  destruct (successful_inv fs w' Hok)
    as (data & logo & writes & Hlogo & Hopen & Hdir & Hw & Hst & _ & _).
  exists data, logo. split_and!; try done.
  - intros item Hitem.
    assert (png_stage item ∈ writes.*1) as Hin.
    { rewrite Hst. unfold image_stages. apply elem_of_app. left.
      apply list_elem_of_fmap. by exists item. }
    apply stage_in_writes in Hin as [png Hin].
    destruct (proj1 (Forall_forall _ _) Hw _ Hin) as (im & Hres & Henc).
    by exists im, png.
  - assert (ico_stage ∈ writes.*1) as Hin.
    { rewrite Hst. unfold image_stages. apply elem_of_app. right.
      apply list_elem_of_here. }
    apply stage_in_writes in Hin as [ico Hin].
    destruct (proj1 (Forall_forall _ _) Hw _ Hin) as (im & Hres & Henc).
    by exists im, ico.
  - destruct (successful_body fs w' Hok) as [_ Hbody].
    rewrite try_body_eq in Hbody.
    change (w_fs (started fs)) with (ensure_dir fs) in Hbody.
    rewrite ensure_dir_other in Hbody by apply logo_path_not_public_dir.
    rewrite Hlogo, Hopen in Hbody. change (w_sizes (started fs)) with sizes in Hbody.
    destruct (for_each (image_stages sizes) (run_stage logo) (started fs))
      as [[[]|e] w2] eqn:Hfor; [|done].
    pose proof (run_stages_targets _ _ _ _ Hfor Hnd) as Htargets.
    rewrite Forall_forall in Htargets.
    assert (w_fs w2 !! manifest_path ≠ Some Dir) as Hm.
    { intros Hd. by rewrite Hd in Hbody. }
    destruct (run_stages_cases logo (image_stages sizes) (started fs))
      as (writes2 & _ & [[Hst2 Hok2]|(st & rest & e & w0 & _ & _ & Hfail)]);
      [|congruence].
    rewrite Hfor in Hok2. injection Hok2 as ->.
    rewrite wrote_all_fs, fs_write_all_other in Hm
      by (by rewrite stage_file_paths, <- Hst2).
    intros p Hp. rewrite output_paths_eq in Hp. unfold file_calls in Hp.
    rewrite fmap_app in Hp. apply elem_of_app in Hp as [Hp|Hp].
    + apply list_elem_of_fmap in Hp as (c & -> & Hc).
      apply list_elem_of_fmap in Hc as (st & -> & Hin).
      specialize (Htargets st Hin). simpl in Htargets.
      rewrite ensure_dir_other in Htargets by by apply stage_path_output.
      exact Htargets.
    + apply list_elem_of_singleton in Hp as ->. simpl in *.
      by rewrite ensure_dir_other in Hm by apply manifest_path_not_public_dir.
Qed.

(** What is enough for a run to succeed. *)
Lemma success_sufficient (fs : gmap string node) :
  (∃ data logo,
      fs !! logo_path = Some (File data)
      ∧ pil_open data = Ok logo
      ∧ (fs !! public_dir = None ∨ fs !! public_dir = Some Dir)
      ∧ (∀ item, item ∈ sizes →
           ∃ im png,
             pil_resize logo (size item, size item) LANCZOS = Ok im
             ∧ pil_encode im PNG = Ok png)
      ∧ (∃ im ico,
            pil_resize logo (32, 32) LANCZOS = Ok im ∧ pil_encode im ICO = Ok ico)
      ∧ (∀ p, p ∈ output_paths → fs !! p ≠ Some Dir)) →
  ∃ w', successful_run fs w'.
Proof.
  destruct stage_paths_NoDup as [_ Hman].
  intros (data & logo & Hlogo & Hopen & Hdir & Hpng & (im & ico & Hres & Henc) & Hfree).
  destruct (stages_writes logo (image_stages sizes)) as (writes & Hst & Hw).
  { unfold image_stages. intros st Hin. apply elem_of_app in Hin as [Hin|Hin].
    - apply list_elem_of_fmap in Hin as (item & -> & Hitem).
      destruct (Hpng item Hitem) as (im' & png & Hres' & Henc').
      exists png, im'. by split.
    - apply list_elem_of_singleton in Hin as ->. exists ico, im. by split. }
  exists (finished (foldl wrote (started fs) writes)).
  apply (successful_intro fs data logo writes); try done.
  - apply Forall_forall. intros [st d] Hin. simpl.
    assert (st ∈ image_stages sizes) as Hstage.
    { rewrite <- Hst. apply list_elem_of_fmap. by exists (st, d). }
    destruct (stage_path_output st Hstage) as [Hout Hne].
    rewrite ensure_dir_other by done. by apply Hfree.
  - rewrite wrote_all_fs, fs_write_all_other by (by rewrite stage_file_paths, Hst).
    simpl. rewrite ensure_dir_other by apply manifest_path_not_public_dir.
    apply Hfree. rewrite output_paths_eq. apply manifest_path_file_call.
Qed.


(** ** The exit status *)



(** ** The manifest and the files *)

(** The PNG file of an entry of [sizes] after a successful run. *)
Lemma successful_png (fs : gmap string node) (w' : world) (item : size_item) :
  successful_run fs w' →
  item ∈ sizes →
  ∃ data logo im png,
    fs !! logo_path = Some (File data)
    ∧ pil_open data = Ok logo
    ∧ pil_resize logo (size item, size item) LANCZOS = Ok im
    ∧ pil_encode im PNG = Ok png
    ∧ w_fs w' !! os_path.join public_dir (name item) = Some (File png).
Proof.
  intros Hrun Hitem.
  destruct (successful_inv fs w' Hrun)
    as (data & logo & writes & Hlogo & Hopen & _ & Hw & Hst & _ & ->).
  assert (png_stage item ∈ writes.*1) as Hin.
  { rewrite Hst. unfold image_stages. apply elem_of_app. left.
    apply list_elem_of_fmap. by exists item. }
  apply stage_in_writes in Hin as [png Hin].
  destruct (proj1 (Forall_forall _ _) Hw _ Hin) as (im & Hres & Henc).
  exists data, logo, im, png. split_and!; try done.
  by apply (success_stage_file fs writes (png_stage item) png).
Qed.

(** X9: the manifest advertises only icons the run made.  After a
    successful run, each entry of [icons] in the manifest has for [src]
    the name of an entry of [sizes] after a slash, for [sizes] that
    entry's size written twice around an [x], for [type] [image/png];
    and the file of that name in the output directory holds the PNG of
    the logo resized to that size. *)
Theorem manifest_icons_generated (fs : gmap string node) (w' : world) (icon : json) :
  successful_run fs w' →
  icon ∈ manifest_icons →
  ∃ item,
    item ∈ sizes
    ∧ json_get "src" icon = Some (JStr (String sep (name item)))
    ∧ json_get "sizes" icon
      = Some (JStr (pretty (size item) +:+ "x" +:+ pretty (size item)))
    ∧ json_get "type" icon = Some (JStr "image/png")
    ∧ ∃ data logo im png,
        fs !! logo_path = Some (File data)
        ∧ pil_open data = Ok logo
        ∧ pil_resize logo (size item, size item) LANCZOS = Ok im
        ∧ pil_encode im PNG = Ok png
        ∧ w_fs w' !! os_path.join public_dir (name item) = Some (File png).
Proof.
  intros Hrun Hicon.
  assert (∀ item, item ∈ sizes →
            json_get "src" icon = Some (JStr (String sep (name item))) →
            json_get "sizes" icon
            = Some (JStr (pretty (size item) +:+ "x" +:+ pretty (size item))) →
            json_get "type" icon = Some (JStr "image/png") →
            ∃ item,
              item ∈ sizes
              ∧ json_get "src" icon = Some (JStr (String sep (name item)))
              ∧ json_get "sizes" icon
                = Some (JStr (pretty (size item) +:+ "x" +:+ pretty (size item)))
              ∧ json_get "type" icon = Some (JStr "image/png")
              ∧ ∃ data logo im png,
                  fs !! logo_path = Some (File data)
                  ∧ pil_open data = Ok logo
                  ∧ pil_resize logo (size item, size item) LANCZOS = Ok im
                  ∧ pil_encode im PNG = Ok png
                  ∧ w_fs w' !! os_path.join public_dir (name item) = Some (File png))
    as Hfound.
  { intros item Hitem Hsrc Hsizes Htype. exists item. split_and!; try done.
    by apply successful_png. }
  change manifest_icons
    with [ JDict [ ("src", JStr "/android-chrome-192x192.png");
                   ("sizes", JStr "192x192");
                   ("type", JStr "image/png") ];
           JDict [ ("src", JStr "/android-chrome-512x512.png");
                   ("sizes", JStr "512x512");
                   ("type", JStr "image/png") ] ] in Hicon.
  apply elem_of_cons in Hicon as [->|Hicon].
  - apply (Hfound (SizeItem "android-chrome-192x192.png" 192)); [|by vm_compute..].
    do 3 apply list_elem_of_further. apply list_elem_of_here.
  - apply list_elem_of_singleton in Hicon as ->.
    apply (Hfound (SizeItem "android-chrome-512x512.png" 512)); [|by vm_compute..].
    do 4 apply list_elem_of_further. apply list_elem_of_here.
Qed.

(** ** Where the paths point *)

Lemma append_cons (c : ascii) (a b : string) : String c a +:+ b = String c (a +:+ b).
Proof. reflexivity. Qed.

Lemma has_sep_append (a b : string) : has_sep (a +:+ b) = has_sep a || has_sep b.
Proof.
  induction a as [|c a IH]; [done |].
  rewrite append_cons. simpl. rewrite IH. by rewrite orb_assoc.
Qed.

Lemma all_sep_append (a b : string) : all_sep (a +:+ b) = all_sep a && all_sep b.
Proof.
  induction a as [|c a IH]; [done |].
  rewrite append_cons. simpl. rewrite IH. by rewrite andb_assoc.
Qed.

Lemma upto_last_sep_no_sep (n : string) :
  has_sep n = false → os_path.upto_last_sep n = EmptyString.
Proof. intros Hn. destruct n as [|c n]; [done |]. simpl in *. by rewrite Hn. Qed.

(** The head of [a/n], for a name [n] without separator, is [a/]. *)
Lemma upto_last_sep_append (a n : string) :
  has_sep n = false →
  os_path.upto_last_sep (a +:+ String sep n) = a +:+ String sep EmptyString.
Proof.
  intros Hn. induction a as [|c a IH].
  - change (EmptyString +:+ String sep n) with (String sep n).
    cbn [os_path.upto_last_sep has_sep]. change (is_sep sep) with true.
    cbn [orb]. by rewrite upto_last_sep_no_sep.
  - rewrite !append_cons. cbn [os_path.upto_last_sep].
    rewrite <- append_cons at 1. rewrite has_sep_append.
    change (has_sep (String sep n)) with (true || has_sep n).
    rewrite orb_true_l, orb_true_r. by rewrite IH.
Qed.

Lemma endswith_sep_split (d : string) :
  endswith_sep d = true → ∃ a, d = a +:+ String sep EmptyString.
Proof.
  induction d as [|c d IH]; [done |].
  destruct d as [|c' d].
  - simpl. intros Hc. exists EmptyString.
    apply Ascii.eqb_eq in Hc. by rewrite Hc.
  - intros Hd. destruct IH as [a Ha]; [exact Hd |].
    exists (String c a). by rewrite append_cons, <- Ha.
Qed.

Lemma rstrip_sep_append_sep (a : string) :
  os_path.rstrip_sep (a +:+ String sep EmptyString) = os_path.rstrip_sep a.
Proof.
  induction a as [|c a IH]; [done |].
  rewrite append_cons. cbn [os_path.rstrip_sep].
  rewrite <- append_cons at 1. rewrite all_sep_append.
  change (all_sep (String sep EmptyString)) with true. rewrite andb_true_r.
  by rewrite IH.
Qed.

Lemma all_sep_endswith (s : string) :
  all_sep s = true → s = EmptyString ∨ endswith_sep s = true.
Proof.
  induction s as [|c s IH]; [by left |].
  simpl. intros Hs. apply andb_prop in Hs as [Hc Hs]. right.
  destruct s as [|c' s]; [done |]. by destruct (IH Hs).
Qed.

Lemma rstrip_sep_id (s : string) :
  endswith_sep s = false → os_path.rstrip_sep s = s.
Proof.
  induction s as [|c s IH]; [done |].
  intros Hs. cbn [os_path.rstrip_sep].
  destruct (all_sep (String c s)) eqn:Hall.
  - destruct (all_sep_endswith _ Hall); congruence.
  - f_equal. apply IH. destruct s as [|c' s]; [done | exact Hs].
Qed.

Lemma rstrip_sep_empty (s : string) :
  os_path.rstrip_sep s = EmptyString → all_sep s = true.
Proof.
  destruct s as [|c s]; [done |]. cbn [os_path.rstrip_sep].
  by destruct (all_sep (String c s)).
Qed.

Lemma rstrip_sep_no_trailing (s : string) : endswith_sep (os_path.rstrip_sep s) = false.
Proof.
  induction s as [|c s IH]; [done |].
  cbn [os_path.rstrip_sep]. destruct (all_sep (String c s)) eqn:Hall; [done |].
  destruct (os_path.rstrip_sep s) as [|c' r] eqn:Hr.
  - simpl. apply rstrip_sep_empty in Hr. simpl in Hall. rewrite Hr in Hall.
    by rewrite andb_true_r in Hall.
  - exact IH.
Qed.

(** What [dirname] returns is empty, made of separators only, or does not
    end with a separator. *)
Lemma dirname_normal (p : string) :
  all_sep (os_path.dirname p) = true ∨ endswith_sep (os_path.dirname p) = false.
Proof.
  unfold os_path.dirname.
  destruct (is_empty (os_path.upto_last_sep p)) eqn:Hemp.
  - left. simpl. by destruct (os_path.upto_last_sep p).
  - simpl. destruct (all_sep (os_path.upto_last_sep p)) eqn:Hall; simpl.
    + by left.
    + right. apply rstrip_sep_no_trailing.
Qed.

(** [dirname] undoes [join] on such a directory and a name without
    separator. *)
Lemma dirname_join (d n : string) :
  all_sep d = true ∨ endswith_sep d = false →
  has_sep n = false →
  os_path.dirname (os_path.join d n) = d.
Proof.
  intros Hd Hn.
  assert (startswith_sep n = false) as Hstart.
  { destruct n as [|c n]; [done |]. simpl in *. by apply orb_false_elim in Hn as [? _]. }
  unfold os_path.join. rewrite Hstart.
  destruct d as [|c d].
  - simpl. unfold os_path.dirname. by rewrite upto_last_sep_no_sep.
  - cbn [is_empty orb]. destruct (endswith_sep (String c d)) eqn:Hend.
    + destruct Hd as [Hall|?]; [|congruence].
      destruct (endswith_sep_split _ Hend) as [a Ha].
      unfold os_path.dirname.
      assert (os_path.upto_last_sep (String c d +:+ n) = String c d) as ->.
      { rewrite Ha, append_assoc. change (String sep EmptyString +:+ n) with (String sep n).
        by apply upto_last_sep_append. }
      by rewrite Hall.
    + unfold os_path.dirname. rewrite upto_last_sep_append by done.
      rewrite all_sep_append.
      assert (all_sep (String c d) = false) as ->.
      { destruct (all_sep (String c d)) eqn:Hall; [|done].
        destruct (all_sep_endswith _ Hall); congruence. }
      rewrite append_cons. cbn [is_empty negb andb].
      rewrite <- append_cons, rstrip_sep_append_sep. by apply rstrip_sep_id.
Qed.

(** X10: the logo and the output directory are entries of one directory,
    the parent of the directory that holds the script; and each output
    file is an entry of the output directory. *)
Theorem paths_in_project_root :
  os_path.dirname logo_path = os_path.dirname (os_path.dirname script_file)
  ∧ os_path.dirname public_dir = os_path.dirname (os_path.dirname script_file)
  ∧ ∀ n, n ∈ output_names → os_path.dirname (os_path.join public_dir n) = public_dir.
Proof.
  split_and!.
  - apply dirname_join; [apply dirname_normal | done].
  - apply dirname_join; [apply dirname_normal | done].
  - intros n Hn. apply dirname_join.
    + right. rewrite public_dir_eq. by rewrite endswith_sep_append.
    + revert n Hn. apply Forall_forall. unfold output_names.
      repeat (constructor; [reflexivity |]). constructor.
Qed.

(** X11: when the path of the script has at most one directory level (a
    bare file name, or a file name in a directory given relative to the
    current directory), the project root is the empty string: the logo
    and the output directory are looked up in the current directory. *)
Theorem shallow_script_uses_current_directory :
  has_sep (os_path.dirname script_file) = false →
  logo_path = "logo.png" ∧ public_dir = "public".
Proof.
  intros Hshallow. unfold logo_path, public_dir.
  assert (os_path.dirname (os_path.dirname script_file) = EmptyString) as ->.
  { unfold os_path.dirname at 1. by rewrite upto_last_sep_no_sep. }
  done.
Qed.

(** ** A run does not change whether a run succeeds *)

Lemma after_failed_save_not_dir (im : Image) (fmt : save_format) (p q : string)
    (fs : gmap string node) :
  fs !! p ≠ Some Dir →
  (after_failed_save im fmt p fs !! q = Some Dir ↔ fs !! q = Some Dir).
Proof.
  intros Hp. destruct (decide (p = q)) as [<-|Hne].
  - unfold after_failed_save. destruct (fs !! p) as [x|] eqn:Hlook.
    + rewrite lookup_insert_eq. split; [done | by intros ?].
    + destruct pil_removes_created; [by rewrite Hlook |].
      rewrite lookup_insert_eq. split; done.
  - by rewrite after_failed_save_other.
Qed.

Lemma insert_file_not_dir (p q data : string) (fs : gmap string node) :
  fs !! p ≠ Some Dir →
  (<[p := File data]> fs !! q = Some Dir ↔ fs !! q = Some Dir).
Proof.
  intros Hp. destruct (decide (p = q)) as [<-|Hne].
  - rewrite lookup_insert_eq. split; [done | by intros ?].
  - by rewrite lookup_insert_ne.
Qed.

(** A stage neither makes nor removes a directory. *)
Lemma run_stage_dirs (logo : Image) (st : stage) (w : world) (r : py_result unit)
    (w' : world) (p : string) :
  run_stage logo st w = (r, w') →
  (w_fs w' !! p = Some Dir ↔ w_fs w !! p = Some Dir).
Proof.
  intros Hrun.
  destruct (run_stage_cases logo st w) as [(data & _ & Hdir & Heq)|(e & w0 & Hf & Heq)];
    rewrite Heq in Hrun; injection Hrun as <- <-.
  - simpl. by apply insert_file_not_dir.
  - inversion Hf as [e' Hres|im Hres Hd|im e' Hres Hd Henc]; subst; try done.
    simpl. by apply after_failed_save_not_dir.
Qed.

Lemma run_stages_dirs (logo : Image) (stages : list stage) (w : world)
    (r : py_result unit) (w' : world) (p : string) :
  for_each stages (run_stage logo) w = (r, w') →
  (w_fs w' !! p = Some Dir ↔ w_fs w !! p = Some Dir).
Proof.
  revert w. induction stages as [|st stages IH]; intros w Hrun.
  - by injection Hrun as <- <-.
  - rewrite for_each_cons in Hrun.
    destruct (run_stage logo st w) as [[[]|e] w1] eqn:Hst.
    + rewrite (IH _ Hrun). by apply (run_stage_dirs logo st w (Ok tt)).
    + injection Hrun as <- <-. by apply (run_stage_dirs logo st w (Raise e)).
Qed.

Lemma try_body_dirs (w : world) (r : py_result unit) (w' : world) (p : string) :
  try_body w = (r, w') →
  (w_fs w' !! p = Some Dir ↔ w_fs w !! p = Some Dir).
Proof.
  rewrite try_body_eq. intros Hrun.
  destruct (w_fs w !! logo_path) as [[data|]|]; [|by injection Hrun as <- <-..].
  destruct (pil_open data) as [logo|e]; [|by injection Hrun as <- <-].
  destruct (for_each (image_stages (w_sizes w)) (run_stage logo) w) as [r2 w2] eqn:Hfor.
  pose proof (run_stages_dirs _ _ _ _ _ p Hfor) as Hdirs.
  destruct r2 as [[]|e]; [|by injection Hrun as <- <-].
  destruct (decide (w_fs w2 !! manifest_path = Some Dir)) as [Hd|Hd].
  - rewrite Hd in Hrun. by injection Hrun as <- <-.
  - assert (w' = finished w2) as ->.
    { destruct (w_fs w2 !! manifest_path) as [[|]|]; by injection Hrun as <- <-. }
    rewrite <- Hdirs. simpl. by apply insert_file_not_dir.
Qed.

(** A run neither makes nor removes a directory, the output directory
    apart. *)
Lemma run_dirs (fs : gmap string node) (r : py_result unit) (w' : world) (p : string) :
  run_script fs = (r, w') →
  p ≠ public_dir →
  (w_fs w' !! p = Some Dir ↔ fs !! p = Some Dir).
Proof.
  rewrite run_script_eq. intros Hrun Hp.
  destruct (fs !! logo_path) as [n|]; [|by injection Hrun as <- <-].
  assert ((r, w') = (Raise (FileExistsError public_dir),
                     World fs sizes [] [bare_event (Makedirs public_dir)])
          ∨ try_except_Exception try_body except_handler (started fs) = (r, w'))
    as [[= -> ->]|Htry].
  { revert Hrun. destruct (fs !! public_dir) as [[|]|]; intros Hrun;
      [by left | by right | by right]. }
  - done.
  - unfold try_except_Exception in Htry.
    destruct (try_body (started fs)) as [r3 w3] eqn:Hbody.
    pose proof (try_body_dirs _ _ _ p Hbody) as Hdirs. simpl in Hdirs.
    rewrite ensure_dir_other in Hdirs by done.
    assert (w_fs w' = w_fs w3) as ->; [|done].
    destruct r3 as [[]|e]; [by injection Htry as _ <- |].
    destruct (is_Exception e); [|by injection Htry as _ <-].
    rewrite handler_eq in Htry. by injection Htry as _ <-.
Qed.

(** The output path is a regular file after a run exactly when it was
    one before. *)
Lemma run_public_file (fs : gmap string node) (r : py_result unit) (w' : world) :
  run_script fs = (r, w') →
  (w_fs w' !! public_dir = None ∨ w_fs w' !! public_dir = Some Dir)
  ↔ (fs !! public_dir = None ∨ fs !! public_dir = Some Dir).
Proof.
  intros Hrun.
  assert (w_fs w' !! public_dir = fs !! public_dir
          ∨ w_fs w' !! public_dir = ensure_dir fs !! public_dir) as Hcase.
  { destruct (run_summary fs r w' Hrun)
      as [_ [[_ ->]|[[_ ->]|(wr & tail & Hpre & _ & _ & Hfs)]]];
      [by left | by left | right].
    assert (public_dir ∉ call_path <$> (wr.*1 ++ tail)) as Hnot.
    { intros Hin. apply public_dir_not_file_path.
      eapply elem_of_prefix; [|exact Hin]. destruct Hpre as [k ->].
      rewrite (fmap_app _ (wr.*1 ++ tail) k). by apply prefix_app_r. }
    rewrite fmap_app in Hnot. apply not_elem_of_app in Hnot as [Hdone Htail].
    rewrite Hfs.
    - by rewrite fs_write_all_other by (by rewrite call_file_paths).
    - intros fmt ->. apply Htail. simpl. apply list_elem_of_here. }
  destruct Hcase as [-> | ->]; [tauto |].
  unfold ensure_dir. destruct (fs !! public_dir) as [[|]|] eqn:Hpub.
  - rewrite Hpub. tauto.
  - rewrite Hpub. tauto.
  - rewrite lookup_insert_eq. tauto.
Qed.

(** X12: a run does not change whether a run succeeds.  The conditions
    of success hold of the file system a run leaves exactly when they
    held of the one it started from: a failed run fails again if it is
    repeated with nothing else changed (what it left behind is not in
    the way), and a successful run succeeds again. *)
Theorem outcome_stable (fs : gmap string node) (r : py_result unit) (w' : world) :
  run_script fs = (r, w') →
  (∃ w1, successful_run fs w1) ↔ (∃ w2, successful_run (w_fs w') w2).
Proof.
  intros Hrun.
  assert (∀ p, p ∈ output_paths → (w_fs w' !! p ≠ Some Dir ↔ fs !! p ≠ Some Dir))
    as Hout.
  { intros p Hp. rewrite (run_dirs fs r w' p); [done.. |].
    intros ->. apply public_dir_not_file_path. by rewrite <- output_paths_eq. }
  pose proof (run_public_file fs r w' Hrun) as Hpub.
  pose proof (run_logo_untouched fs r w' Hrun) as Hlogo.
  split; intros Hok.
  - apply success_sufficient. apply success_necessary in Hok.
    destruct Hok as (data & logo & Hl & Hopen & Hdir & Hpng & Hico & Hfree).
    exists data, logo. split_and!; try done.
    + by rewrite Hlogo.
    + by apply Hpub.
    + intros p Hp. apply Hout; [done |]. by apply Hfree.
  - apply success_sufficient. apply success_necessary in Hok.
    destruct Hok as (data & logo & Hl & Hopen & Hdir & Hpng & Hico & Hfree).
    exists data, logo. split_and!; try done.
    + by rewrite <- Hlogo.
    + by apply Hpub.
    + intros p Hp. apply Hout; [done |]. by apply Hfree.
Qed.

End Script.

(** ** The small Pillow keeps its promises *)

Lemma sample_byte_roundtrip (n : Z) : 0 ≤ n < 256 → Sample.of_byte (Sample.byte_of n) = n.
Proof.
  intros Hn. unfold Sample.of_byte, Sample.byte_of.
  rewrite N_ascii_embedding by lia. lia.
Qed.

Lemma sample_encode_decode (im : Sample.image) (fmt : save_format) (data : string) :
  Sample.encode im fmt = Ok data → Sample.decode data = Ok im.
Proof.
  destruct im as [w h]. unfold Sample.encode, Sample.fits.
  destruct (_ && _) eqn:Hfits; [|done]. intros [= <-].
  apply andb_prop in Hfits as [Hw Hh].
  apply andb_prop in Hw as [Hw1 Hw2]. apply andb_prop in Hh as [Hh1 Hh2].
  apply Z.leb_le in Hw1, Hh1. apply Z.ltb_lt in Hw2, Hh2.
  unfold Sample.decode.
  rewrite !sample_byte_roundtrip
    by (split; [apply Z.div_pos || apply Z.mod_pos_bound
               | apply Z.div_lt_upper_bound || apply Z.mod_pos_bound]; lia).
  by rewrite <- !Z.div_mod by lia.
Qed.

Lemma sample_resize_size (im : Sample.image) (sz : Z * Z) (resample : Resampling)
    (im' : Sample.image) :
  Sample.resize im sz resample = Ok im' → Sample.im_size im' = sz.
Proof. by intros [= <-]. Qed.

Lemma sample_png_decodes (im : Sample.image) (data : string) :
  Sample.encode im PNG = Ok data →
  ∃ im', Sample.decode data = Ok im' ∧ Sample.im_size im' = Sample.im_size im.
Proof. intros Henc. exists im. split; [by apply (sample_encode_decode im PNG) | done]. Qed.

Lemma sample_ico_decodes (im : Sample.image) (data : string) :
  Sample.im_size im = (32, 32) →
  Sample.encode im ICO = Ok data →
  ∃ im', Sample.decode data = Ok im' ∧ Sample.im_size im' = (32, 32).
Proof. intros Hsz Henc. exists im. split; [by apply (sample_encode_decode im ICO) | done]. Qed.

(** ** The theorems on concrete runs *)

Lemma pair_eta_fst {A B} (p : A * B) (a : A) : p.1 = a → p = (a, p.2).
Proof. destruct p. simpl. congruence. Qed.

(** A goal [successful_run ... fs (run_script ... fs).2], by running. *)
Ltac run_succeeds := split; [apply pair_eta_fst |]; vm_compute; reflexivity.

(** C1 on a project with a 300 by 200 logo: the run is successful, and
    the touch icon decodes to 180 by 180. *)
Lemma png_outputs_resized_witness :
  successful_run Sample.script Sample.decode Sample.resize Sample.encode Sample.partial Sample.removes_created
    Sample.fresh
    (run_script Sample.script Sample.decode Sample.resize Sample.encode Sample.partial Sample.removes_created
       Sample.fresh).2
  ∧ ∃ png,
      w_fs (run_script Sample.script Sample.decode Sample.resize Sample.encode
              Sample.partial Sample.removes_created Sample.fresh).2
        !! "/srv/site/public/apple-touch-icon.png" = Some (File png)
      ∧ Sample.decode png = Ok (180, 180).
Proof.
  assert (successful_run Sample.script Sample.decode Sample.resize Sample.encode
            Sample.partial Sample.removes_created Sample.fresh
            (run_script Sample.script Sample.decode Sample.resize Sample.encode
               Sample.partial Sample.removes_created Sample.fresh).2) as Hrun
    by run_succeeds.
  split; [exact Hrun |].
  destruct (png_outputs_resized Sample.script Sample.im_size Sample.decode Sample.resize
              Sample.encode Sample.partial Sample.removes_created sample_resize_size sample_png_decodes _ _ Hrun)
    as (_ & data & logo & _ & _ & Hitems).
  destruct (Hitems (SizeItem "apple-touch-icon.png" 180))
    as (favicon & png & decoded & _ & _ & _ & Hfile & Hdec & Hsz).
  { do 2 apply list_elem_of_further. apply list_elem_of_here. }
  exists png. split; [exact Hfile |]. rewrite Hdec. f_equal. exact Hsz.
Defined.

(** C7 on the same project: the icon decodes to 32 by 32. *)
Lemma ico_resized_from_source_witness :
  successful_run Sample.script Sample.decode Sample.resize Sample.encode Sample.partial Sample.removes_created
    Sample.fresh
    (run_script Sample.script Sample.decode Sample.resize Sample.encode Sample.partial Sample.removes_created
       Sample.fresh).2
  ∧ ∃ ico,
      w_fs (run_script Sample.script Sample.decode Sample.resize Sample.encode
              Sample.partial Sample.removes_created Sample.fresh).2
        !! "/srv/site/public/favicon.ico" = Some (File ico)
      ∧ Sample.decode ico = Ok (32, 32).
Proof.
  assert (successful_run Sample.script Sample.decode Sample.resize Sample.encode
            Sample.partial Sample.removes_created Sample.fresh
            (run_script Sample.script Sample.decode Sample.resize Sample.encode
               Sample.partial Sample.removes_created Sample.fresh).2) as Hrun
    by run_succeeds.
  split; [exact Hrun |].
  destruct (ico_resized_from_source Sample.script Sample.im_size Sample.decode
              Sample.resize Sample.encode Sample.partial Sample.removes_created sample_resize_size
              sample_ico_decodes _ _ Hrun)
    as (data & logo & favicon_32 & ico & decoded & _ & _ & _ & _ & Hfile & Hdec & Hsz).
  exists ico. split; [exact Hfile |]. rewrite Hdec. f_equal. exact Hsz.
Defined.

(** C2 on the same project. *)
Lemma manifest_matches_spec_witness :
  successful_run Sample.script Sample.decode Sample.resize Sample.encode Sample.partial Sample.removes_created
    Sample.fresh
    (run_script Sample.script Sample.decode Sample.resize Sample.encode Sample.partial Sample.removes_created
       Sample.fresh).2
  ∧ ∃ text,
      w_fs (run_script Sample.script Sample.decode Sample.resize Sample.encode
              Sample.partial Sample.removes_created Sample.fresh).2
        !! "/srv/site/public/site.webmanifest" = Some (File text)
      ∧ json_reader.loads text = Some spec_manifest.
Proof.
  assert (successful_run Sample.script Sample.decode Sample.resize Sample.encode
            Sample.partial Sample.removes_created Sample.fresh
            (run_script Sample.script Sample.decode Sample.resize Sample.encode
               Sample.partial Sample.removes_created Sample.fresh).2) as Hrun
    by run_succeeds.
  split; [exact Hrun |].
  destruct (manifest_matches_spec Sample.script Sample.decode Sample.resize Sample.encode
              Sample.partial Sample.removes_created _ _ Hrun)
    as (text & Hfile & _ & Hloads).
  exists text. split; [exact Hfile | exact Hloads].
Defined.

(** C5 on the same project: the seven files, and the logo as it was. *)
Lemma seven_outputs_only_witness :
  successful_run Sample.script Sample.decode Sample.resize Sample.encode Sample.partial Sample.removes_created
    Sample.fresh
    (run_script Sample.script Sample.decode Sample.resize Sample.encode Sample.partial Sample.removes_created
       Sample.fresh).2
  ∧ call_path
      <$> written_calls
            (w_log (run_script Sample.script Sample.decode Sample.resize Sample.encode
                      Sample.partial Sample.removes_created Sample.fresh).2)
    = [ "/srv/site/public/favicon-16x16.png";
        "/srv/site/public/favicon-32x32.png";
        "/srv/site/public/apple-touch-icon.png";
        "/srv/site/public/android-chrome-192x192.png";
        "/srv/site/public/android-chrome-512x512.png";
        "/srv/site/public/favicon.ico";
        "/srv/site/public/site.webmanifest" ]
  ∧ w_fs (run_script Sample.script Sample.decode Sample.resize Sample.encode
            Sample.partial Sample.removes_created Sample.fresh).2
      !! "/srv/site/logo.png" = Some (File Sample.logo_data).
Proof.
  assert (successful_run Sample.script Sample.decode Sample.resize Sample.encode
            Sample.partial Sample.removes_created Sample.fresh
            (run_script Sample.script Sample.decode Sample.resize Sample.encode
               Sample.partial Sample.removes_created Sample.fresh).2) as Hrun
    by run_succeeds.
  split; [exact Hrun |].
  destruct (seven_outputs_only Sample.script Sample.decode Sample.resize Sample.encode
              Sample.partial Sample.removes_created _ _ Hrun)
    as (Hcalls & _ & _ & _ & _ & _ & _ & Hframe).
  split; [exact Hcalls |].
  rewrite Hframe; [reflexivity | |].
  - apply (bool_decide_unpack _). vm_compute. exact I.
  - intros Heq. vm_compute in Heq. discriminate Heq.
Defined.

(** C3 on a project without a logo. *)
Lemma logo_missing_returns_cleanly_witness :
  Sample.no_logo !! logo_path Sample.script = None
  ∧ ∃ w',
      run_script Sample.script Sample.decode Sample.resize Sample.encode Sample.partial Sample.removes_created
        Sample.no_logo = (Ok tt, w')
      ∧ w_stdout w' = not_found_guidance
      ∧ w_fs w' = Sample.no_logo
      ∧ w_log w' = []
      ∧ exit_status
          (run_script Sample.script Sample.decode Sample.resize Sample.encode
             Sample.partial Sample.removes_created Sample.no_logo).1 = 0.
Proof.
  split; [reflexivity |].
  apply (logo_missing_returns_cleanly Sample.script Sample.decode Sample.resize
           Sample.encode Sample.partial Sample.removes_created Sample.no_logo).
  reflexivity.
Defined.

(** C10 on a project in which [public] is a regular file. *)
Lemma makedirs_failure_propagates_witness :
  is_Some (Sample.public_is_file !! logo_path Sample.script)
  ∧ (run_script Sample.script Sample.decode Sample.resize Sample.encode Sample.partial Sample.removes_created
       Sample.public_is_file).1 = Raise (FileExistsError "/srv/site/public")
  ∧ exit_status
      (run_script Sample.script Sample.decode Sample.resize Sample.encode Sample.partial Sample.removes_created
         Sample.public_is_file).1 ≠ 0.
Proof.
  assert (is_Some (Sample.public_is_file !! logo_path Sample.script)) as Hlogo.
  { exists (File Sample.logo_data). vm_compute. reflexivity. }
  split; [exact Hlogo |].
  destruct (makedirs_failure_propagates Sample.script Sample.decode Sample.resize
              Sample.encode Sample.partial Sample.removes_created Sample.public_is_file Hlogo)
    as [Hraise Hfile].
  split.
  - apply (Hfile "not a directory"). vm_compute. reflexivity.
  - destruct (Hraise (FileExistsError "/srv/site/public")
                (os_makedirs (public_dir Sample.script) true
                   (module_init Sample.public_is_file)).2)
      as (_ & _ & _ & _ & Hexit); [|exact Hexit].
    apply pair_eta_fst. vm_compute. reflexivity.
Defined.

(** C4 as amended, on a project in which the place of [favicon.ico] is
    taken by a directory: the save raises [IsADirectoryError] after the
    five PNG files, the handler reports it and the run ends normally. *)
Lemma exception_caught_and_reported_witness :
  (try_body Sample.script Sample.decode Sample.resize Sample.encode Sample.partial Sample.removes_created
     ((os_makedirs (public_dir Sample.script) true ;; print "Generating favicons...")
        (module_init Sample.ico_is_dir)).2).1
  = Raise (IsADirectoryError "/srv/site/public/favicon.ico")
  ∧ is_Exception (IsADirectoryError "/srv/site/public/favicon.ico") = true
  ∧ ∃ w',
      run_script Sample.script Sample.decode Sample.resize Sample.encode Sample.partial Sample.removes_created
        Sample.ico_is_dir = (Ok tt, w')
      ∧ last (w_stdout w')
        = Some (String newline "Make sure Pillow is installed: pip install Pillow")
      ∧ exit_status
          (run_script Sample.script Sample.decode Sample.resize Sample.encode
             Sample.partial Sample.removes_created Sample.ico_is_dir).1 = 0.
Proof.
  split; [vm_compute; reflexivity |]. split; [reflexivity |].
  destruct (exception_caught_and_reported Sample.script Sample.decode Sample.resize
              Sample.encode Sample.partial Sample.removes_created Sample.ico_is_dir
              ((os_makedirs (public_dir Sample.script) true ;;
                print "Generating favicons...") (module_init Sample.ico_is_dir)).2
              (try_body Sample.script Sample.decode Sample.resize Sample.encode
                 Sample.partial Sample.removes_created
                 ((os_makedirs (public_dir Sample.script) true ;;
                   print "Generating favicons...") (module_init Sample.ico_is_dir)).2).2
              (IsADirectoryError "/srv/site/public/favicon.ico"))
    as (w' & Hrun & Hout & _ & _ & Hexit).
  - exists (File Sample.logo_data). vm_compute. reflexivity.
  - apply pair_eta_fst. vm_compute. reflexivity.
  - apply pair_eta_fst. vm_compute. reflexivity.
  - reflexivity.
  - exists w'. split; [exact Hrun |]. split; [|exact Hexit].
    rewrite Hout. apply (last_app_cons _ [_] _).
Defined.

(** C4 as stated fails.  When the user interrupts the decoding, the
    [KeyboardInterrupt] raised in the body of [try] is not an instance
    of [Exception]: it leaves [generate_favicons] and the exit status is
    130.  And when [public] is a regular file, the exit status is 1. *)
Lemma keyboard_interrupt_not_caught :
  (try_body Sample.script Sample.interrupted Sample.resize Sample.encode Sample.partial Sample.removes_created
     ((os_makedirs (public_dir Sample.script) true ;; print "Generating favicons...")
        (module_init Sample.fresh)).2).1
  = Raise KeyboardInterrupt
  ∧ (run_script Sample.script Sample.interrupted Sample.resize Sample.encode
       Sample.partial Sample.removes_created Sample.fresh).1 = Raise KeyboardInterrupt
  ∧ exit_status
      (run_script Sample.script Sample.interrupted Sample.resize Sample.encode
         Sample.partial Sample.removes_created Sample.fresh).1 = 130
  ∧ exit_status
      (run_script Sample.script Sample.decode Sample.resize Sample.encode
         Sample.partial Sample.removes_created Sample.public_is_file).1 = 1.
Proof. split_and!; vm_compute; reflexivity. Qed.


(** C9 on the same project: the run ends normally after the save of the
    icon raised, and the five PNG files written before are on disk. *)
Lemma written_files_remain_witness :
  run_script Sample.script Sample.decode Sample.resize Sample.encode Sample.partial Sample.removes_created
    Sample.ico_is_dir
  = ((run_script Sample.script Sample.decode Sample.resize Sample.encode Sample.partial Sample.removes_created
        Sample.ico_is_dir).1,
     (run_script Sample.script Sample.decode Sample.resize Sample.encode Sample.partial Sample.removes_created
        Sample.ico_is_dir).2)
  ∧ length (written_calls
              (w_log (run_script Sample.script Sample.decode Sample.resize Sample.encode
                        Sample.partial Sample.removes_created Sample.ico_is_dir).2)) = 5%nat
  ∧ ∀ c data,
      FsEvent c (Some data)
        ∈ w_log (run_script Sample.script Sample.decode Sample.resize Sample.encode
                   Sample.partial Sample.removes_created Sample.ico_is_dir).2 →
      w_fs (run_script Sample.script Sample.decode Sample.resize Sample.encode
              Sample.partial Sample.removes_created Sample.ico_is_dir).2
        !! call_path c = Some (File data).
Proof.
  split; [apply surjective_pairing |].
  split; [vm_compute; reflexivity |].
  exact (proj1 (written_files_remain Sample.script Sample.decode Sample.resize
                  Sample.encode Sample.partial Sample.removes_created Sample.ico_is_dir _ _
                  (surjective_pairing _))).
Defined.

(** C8 on the project with a 300 by 200 logo: the second run is
    successful and leaves the file system of the first. *)
Lemma rerun_is_idempotent_witness :
  successful_run Sample.script Sample.decode Sample.resize Sample.encode Sample.partial Sample.removes_created
    Sample.fresh
    (run_script Sample.script Sample.decode Sample.resize Sample.encode Sample.partial Sample.removes_created
       Sample.fresh).2
  ∧ ∃ w2,
      successful_run Sample.script Sample.decode Sample.resize Sample.encode
        Sample.partial Sample.removes_created
        (w_fs (run_script Sample.script Sample.decode Sample.resize Sample.encode
                 Sample.partial Sample.removes_created Sample.fresh).2)
        w2
      ∧ w_fs w2
        = w_fs (run_script Sample.script Sample.decode Sample.resize Sample.encode
                  Sample.partial Sample.removes_created Sample.fresh).2.
Proof.
  assert (successful_run Sample.script Sample.decode Sample.resize Sample.encode
            Sample.partial Sample.removes_created Sample.fresh
            (run_script Sample.script Sample.decode Sample.resize Sample.encode
               Sample.partial Sample.removes_created Sample.fresh).2) as Hrun
    by run_succeeds.
  split; [exact Hrun |].
  destruct (rerun_is_idempotent Sample.script Sample.decode Sample.resize Sample.encode
              Sample.partial Sample.removes_created _ _ Hrun)
    as ((w2 & Hrun2 & Hfs & _) & _).
  exists w2. split; [exact Hrun2 | exact Hfs].
Defined.

(** ** The further properties on concrete runs *)




(** X1 on the project with a 300 by 200 logo. *)
Lemma success_transcript_witness :
  successful_run Sample.script Sample.decode Sample.resize Sample.encode Sample.partial
    Sample.removes_created Sample.fresh
    (run_script Sample.script Sample.decode Sample.resize Sample.encode Sample.partial
       Sample.removes_created Sample.fresh).2
  ∧ length (w_stdout (run_script Sample.script Sample.decode Sample.resize Sample.encode
                        Sample.partial Sample.removes_created Sample.fresh).2) = 10%nat.
Proof.
  assert (successful_run Sample.script Sample.decode Sample.resize Sample.encode
            Sample.partial Sample.removes_created Sample.fresh
            (run_script Sample.script Sample.decode Sample.resize Sample.encode
               Sample.partial Sample.removes_created Sample.fresh).2) as Hrun
    by run_succeeds.
  split; [exact Hrun |].
  by rewrite (success_transcript Sample.script Sample.decode Sample.resize Sample.encode
                Sample.partial Sample.removes_created _ _ Hrun).
Defined.

(** X2 on the project in which the place of [favicon.ico] is taken by a
    directory: the run fails, the line of the first PNG was printed and
    the file is there. *)
Lemma progress_lines_truthful_witness :
  (run_script Sample.script Sample.decode Sample.resize Sample.encode Sample.partial
     Sample.removes_created Sample.ico_is_dir
   = ((run_script Sample.script Sample.decode Sample.resize Sample.encode Sample.partial
         Sample.removes_created Sample.ico_is_dir).1,
      (run_script Sample.script Sample.decode Sample.resize Sample.encode Sample.partial
         Sample.removes_created Sample.ico_is_dir).2))
  ∧ ("Generated " +:+ "favicon-16x16.png")
      ∈ w_stdout (run_script Sample.script Sample.decode Sample.resize Sample.encode
                    Sample.partial Sample.removes_created Sample.ico_is_dir).2
  ∧ ∃ data,
      w_fs (run_script Sample.script Sample.decode Sample.resize Sample.encode
              Sample.partial Sample.removes_created Sample.ico_is_dir).2
        !! "/srv/site/public/favicon-16x16.png" = Some (File data).
Proof.
  split; [apply surjective_pairing |].
  assert (("Generated " +:+ "favicon-16x16.png")
            ∈ w_stdout (run_script Sample.script Sample.decode Sample.resize
                          Sample.encode Sample.partial Sample.removes_created
                          Sample.ico_is_dir).2) as Hline.
  { apply (bool_decide_unpack _). vm_compute. exact I. }
  split; [exact Hline |].
  exact (progress_lines_truthful Sample.script Sample.decode Sample.resize Sample.encode
           Sample.partial Sample.removes_created Sample.ico_is_dir _ _
           "favicon-16x16.png" (surjective_pairing _) Hline).
Defined.

(** X3 on that project with a manifest left by an earlier run: the run
    fails before the manifest, which is left as it was; so is the logo. *)
Lemma untouched_paths_witness :
  (run_script Sample.script Sample.decode Sample.resize Sample.encode Sample.partial
     Sample.removes_created Sample.stale_manifest
   = ((run_script Sample.script Sample.decode Sample.resize Sample.encode Sample.partial
         Sample.removes_created Sample.stale_manifest).1,
      (run_script Sample.script Sample.decode Sample.resize Sample.encode Sample.partial
         Sample.removes_created Sample.stale_manifest).2))
  ∧ w_fs (run_script Sample.script Sample.decode Sample.resize Sample.encode
            Sample.partial Sample.removes_created Sample.stale_manifest).2
      !! "/srv/site/public/site.webmanifest" = Some (File "{}")
  ∧ w_fs (run_script Sample.script Sample.decode Sample.resize Sample.encode
            Sample.partial Sample.removes_created Sample.stale_manifest).2
      !! "/srv/site/logo.png" = Some (File Sample.logo_data).
Proof.
  split; [apply surjective_pairing |].
  destruct (untouched_paths Sample.script Sample.decode Sample.resize Sample.encode
              Sample.partial Sample.removes_created Sample.stale_manifest _ _
              (surjective_pairing _)) as [Hframe Hlogo].
  split.
  - rewrite Hframe; [reflexivity |].
    apply (bool_decide_unpack _). vm_compute. exact I.
  - etrans; [exact Hlogo | reflexivity].
Defined.

(** X4 on the project in which the place of [favicon.ico] is taken by a
    directory: the five PNG files were written, in order. *)
Lemma outputs_written_in_sequence_witness :
  (run_script Sample.script Sample.decode Sample.resize Sample.encode Sample.partial
     Sample.removes_created Sample.ico_is_dir
   = ((run_script Sample.script Sample.decode Sample.resize Sample.encode Sample.partial
         Sample.removes_created Sample.ico_is_dir).1,
      (run_script Sample.script Sample.decode Sample.resize Sample.encode Sample.partial
         Sample.removes_created Sample.ico_is_dir).2))
  ∧ written_calls
      (w_log (run_script Sample.script Sample.decode Sample.resize Sample.encode
                Sample.partial Sample.removes_created Sample.ico_is_dir).2)
      `prefix_of` file_calls Sample.script
  ∧ length (written_calls
              (w_log (run_script Sample.script Sample.decode Sample.resize Sample.encode
                        Sample.partial Sample.removes_created Sample.ico_is_dir).2))
    = 5%nat.
Proof.
  split; [apply surjective_pairing |].
  split; [|vm_compute; reflexivity].
  exact (proj1 (outputs_written_in_sequence Sample.script Sample.decode Sample.resize
                  Sample.encode Sample.partial Sample.removes_created Sample.ico_is_dir
                  _ _ (surjective_pairing _))).
Defined.





(** X9 on the project with a 300 by 200 logo, for the first icon of the
    manifest. *)
Lemma manifest_icons_generated_witness :
  successful_run Sample.script Sample.decode Sample.resize Sample.encode Sample.partial
    Sample.removes_created Sample.fresh
    (run_script Sample.script Sample.decode Sample.resize Sample.encode Sample.partial
       Sample.removes_created Sample.fresh).2
  ∧ JDict [ ("src", JStr "/android-chrome-192x192.png");
            ("sizes", JStr "192x192");
            ("type", JStr "image/png") ] ∈ manifest_icons
  ∧ ∃ item,
      item ∈ sizes
      ∧ ∃ png,
          w_fs (run_script Sample.script Sample.decode Sample.resize Sample.encode
                  Sample.partial Sample.removes_created Sample.fresh).2
            !! os_path.join (public_dir Sample.script) (name item) = Some (File png).
Proof.
  assert (successful_run Sample.script Sample.decode Sample.resize Sample.encode
            Sample.partial Sample.removes_created Sample.fresh
            (run_script Sample.script Sample.decode Sample.resize Sample.encode
               Sample.partial Sample.removes_created Sample.fresh).2) as Hrun
    by run_succeeds.
  assert (JDict [ ("src", JStr "/android-chrome-192x192.png");
                  ("sizes", JStr "192x192");
                  ("type", JStr "image/png") ] ∈ manifest_icons) as Hicon
    by apply list_elem_of_here.
  split; [exact Hrun |]. split; [exact Hicon |].
  destruct (manifest_icons_generated Sample.script Sample.decode Sample.resize
              Sample.encode Sample.partial Sample.removes_created _ _ _ Hrun Hicon)
    as (item & Hitem & _ & _ & _ & data & logo & im & png & _ & _ & _ & _ & Hfile).
  exists item. split; [exact Hitem |]. exists png. exact Hfile.
Defined.

(** X11 for a script started as [python scripts/generate-favicon-python.py]. *)
Lemma shallow_script_uses_current_directory_witness :
  has_sep (os_path.dirname Sample.relative_script) = false
  ∧ logo_path Sample.relative_script = "logo.png"
  ∧ public_dir Sample.relative_script = "public".
Proof.
  split; [reflexivity |].
  apply (shallow_script_uses_current_directory Sample.relative_script). reflexivity.
Defined.

(** X12 on the project in which the place of [favicon.ico] is taken by a
    directory: the run fails, and so does a run on what it leaves. *)
Lemma outcome_stable_witness :
  (run_script Sample.script Sample.decode Sample.resize Sample.encode Sample.partial
     Sample.removes_created Sample.ico_is_dir
   = ((run_script Sample.script Sample.decode Sample.resize Sample.encode Sample.partial
         Sample.removes_created Sample.ico_is_dir).1,
      (run_script Sample.script Sample.decode Sample.resize Sample.encode Sample.partial
         Sample.removes_created Sample.ico_is_dir).2))
  ∧ ¬ ∃ w2,
        successful_run Sample.script Sample.decode Sample.resize Sample.encode
          Sample.partial Sample.removes_created
          (w_fs (run_script Sample.script Sample.decode Sample.resize Sample.encode
                   Sample.partial Sample.removes_created Sample.ico_is_dir).2)
          w2.
Proof.
  split; [apply surjective_pairing |].
  intros Hagain.
  apply (proj2 (outcome_stable Sample.script Sample.decode Sample.resize Sample.encode
                  Sample.partial Sample.removes_created Sample.ico_is_dir _ _
                  (surjective_pairing _))) in Hagain.
  destruct Hagain as [w1 [Hrun Hlast]].
  apply (f_equal snd) in Hrun. simpl in Hrun. subst w1.
  vm_compute in Hlast. discriminate Hlast.
Defined.
